(** * Asynchronous operation coordination in the self-checkout client

    A shallow embedding of the two React components that coordinate
    asynchronous operations in the self-checkout web client:

    - [ConfigWindow] (components/config/ConfigWindow): arbitration of the
      camera between the scanning view and the configuration view;
    - [CheckoutModal] (components/checkout/CheckoutModal.tsx): one payment
      attempt with the embedded Snap widget and the expiry countdown.

    Component state ([useState] cells, refs, props owned by the parent) is a
    record.  A handler is a function [closure -> State -> State]: the first
    argument is the render-time snapshot the JavaScript closure captured, the
    second the live state the setters act on.  [useSocket] returns a fresh
    object on every render, so the effect that registers the socket handlers
    re-runs on every render and a handler always sees the latest snapshot;
    [run] expresses that.  Everything the component does to the outside world
    (socket emits, notifications, store writes, widget calls) is appended to
    the [effects] log of the state, in program order.  Browser timers are kept
    in a timer table; firing one is a transition of its own, and so are the
    continuation of a handler after an [await] and the cleanup that a
    re-render runs, where a claim depends on what happens in between. *)

From Stdlib Require Import ZArith String List Bool Arith Lia DecimalString.
From Equations Require Import Equations.
From Equations.Prop Require Import Logic.
Import ListNotations.

Open Scope string_scope.
Open Scope Z_scope.

(** ** JavaScript values used by both components *)

(** Rendering of a number inside a template literal, for the numbers that
    occur here: integers of magnitude below 10^21 (camera indices), which
    JavaScript prints with all their digits. *)
Definition js_number (z : Z) : string := NilZero.string_of_int (Z.to_int z).

(** [`${x}`] for an optional number field: a missing field prints as
    [undefined]. *)
Definition template_number (x : option Z) : string :=
  match x with
  | Some z => js_number z
  | None => "undefined"
  end.

(** [`${x}`] for an optional string field. *)
Definition template_string (x : option string) : string :=
  match x with
  | Some m => m
  | None => "undefined"
  end.

(** Truthiness of a string: every string but the empty one. *)
Definition truthy_string (x : string) : bool :=
  match x with
  | EmptyString => false
  | String _ _ => true
  end.

(** Truthiness of an optional string field. *)
Definition truthy_field (x : option string) : bool :=
  match x with
  | Some m => truthy_string m
  | None => false
  end.

(** Truthiness of an optional boolean field. *)
Definition truthy_flag (x : option bool) : bool :=
  match x with
  | Some b => b
  | None => false
  end.

(** Sequencing of state updates, read left to right like the statements of a
    handler body. *)
Definition seq {S : Type} (c1 c2 : S -> S) : S -> S := fun s => c2 (c1 s).
Notation "c1 ;; c2" := (seq c1 c2) (at level 61, left associativity).

(** The empty statement. *)
Definition skip {S : Type} : S -> S := fun s => s.

(** A statement guarded by a condition, [if (b) { c }]. *)
Definition when {S : Type} (b : bool) (c : S -> S) : S -> S :=
  if b then c else skip.

(** A handler receives its closure snapshot; [run] supplies the snapshot of
    the render in which the handler was registered, which is the current
    state. *)
Definition run {S : Type} (h : S -> S -> S) (s : S) : S := h s s.

(** ** The configuration window *)

Module ConfigWindow.

(** The parts of [AppConfig] that the handlers read or write: the camera and
    model of the [advanced] section and the [simulation] switch.  The
    [detection] and [visual] sections are edited by form controls only. *)
Record AppConfig := mkAppConfig {
  advanced_cameraId : option Z;
  advanced_model : string;
  simulation_enabled : bool
}.

(** [DEFAULT_CONFIG] of lib/constants.ts. *)
Definition DEFAULT_CONFIG : AppConfig :=
  {| advanced_cameraId := Some 0;
     advanced_model := "yolov5s";
     simulation_enabled := false |}.

(** [config.advanced?.cameraId || 0]. *)
Definition cameraId_or_0 (c : AppConfig) : Z :=
  match advanced_cameraId c with
  | Some z => z
  | None => 0
  end.

(** Commands emitted on the socket. *)
Inductive Command :=
| kill_camera_for_config
| initialize_camera (camera_id : Z)
| get_available_cameras
| toggle_simulation (enabled : bool).

(** The callbacks handed to [setTimeout]. *)
Inductive TimerCallback :=
| SaveTimeout
| CloseRestoreTimeout
| TabRestoreTimeout (newTab : string).

(** What the component does to the outside world. *)
Inductive Effect :=
| Emit (c : Command)
| ShowNotification (message : string)
| SaveConfig (c : AppConfig)
| SetCameraEnabled (enabled : bool)
| HandleClose
| SetTimeout (id : nat) (delay : Z)
| ClearTimeout (id : nat).

Record State := mkState {
  (* props and context *)
  open : bool;
  config : option AppConfig;
  configVersion : nat;
  socket : bool;
  connected : bool;
  (* useState cells *)
  pendingConfig : AppConfig;
  hasChanges : bool;
  isLoadingCameras : bool;
  isInitializingCamera : bool;
  isRestoringCamera : bool;
  isClosingModal : bool;
  pendingTabChange : option string;
  initializationTimeout : option nat;
  previousCameraId : Z;
  selectedCameraId : Z;
  activeTab : string;
  (* the browser's timer table and the log of effects *)
  timers : list (nat * TimerCallback);
  nextTimer : nat;
  effects : list Effect
}.

(** The state of a freshly mounted component. *)
Definition initial (sock conn : bool) (cfg : option AppConfig) : State :=
  {| open := false; config := cfg; configVersion := 0%nat;
     socket := sock; connected := conn;
     pendingConfig := DEFAULT_CONFIG; hasChanges := false;
     isLoadingCameras := false;
     isInitializingCamera := false; isRestoringCamera := false;
     isClosingModal := false; pendingTabChange := None;
     initializationTimeout := None;
     previousCameraId := 0; selectedCameraId := 0;
     activeTab := "detection";
     timers := []; nextTimer := 1%nat; effects := [] |}.

(** *** Setters *)

Definition setOpen (b : bool) (s : State) : State :=
  mkState b (config s) (configVersion s) (socket s) (connected s)
    (pendingConfig s)
    (hasChanges s) (isLoadingCameras s) (isInitializingCamera s)
    (isRestoringCamera s) (isClosingModal s) (pendingTabChange s)
    (initializationTimeout s) (previousCameraId s) (selectedCameraId s)
    (activeTab s) (timers s) (nextTimer s) (effects s).

(** [setConfig] of the settings context.  Every call installs a new object;
    [configVersion] stands for its identity, which is what the dependency
    array of an effect compares. *)
Definition setConfig (c : option AppConfig) (s : State) : State :=
  mkState (open s) c (S (configVersion s)) (socket s) (connected s)
    (pendingConfig s)
    (hasChanges s) (isLoadingCameras s) (isInitializingCamera s)
    (isRestoringCamera s) (isClosingModal s) (pendingTabChange s)
    (initializationTimeout s) (previousCameraId s) (selectedCameraId s)
    (activeTab s) (timers s) (nextTimer s) (effects s).

(** [setSocket(socketInstance)] of the socket hook. *)
Definition setSocket (b : bool) (s : State) : State :=
  mkState (open s) (config s) (configVersion s) b (connected s)
    (pendingConfig s)
    (hasChanges s) (isLoadingCameras s) (isInitializingCamera s)
    (isRestoringCamera s) (isClosingModal s) (pendingTabChange s)
    (initializationTimeout s) (previousCameraId s) (selectedCameraId s)
    (activeTab s) (timers s) (nextTimer s) (effects s).

Definition setPendingConfig (c : AppConfig) (s : State) : State :=
  mkState (open s) (config s) (configVersion s) (socket s) (connected s)
    c
    (hasChanges s) (isLoadingCameras s) (isInitializingCamera s)
    (isRestoringCamera s) (isClosingModal s) (pendingTabChange s)
    (initializationTimeout s) (previousCameraId s) (selectedCameraId s)
    (activeTab s) (timers s) (nextTimer s) (effects s).

Definition setHasChanges (b : bool) (s : State) : State :=
  mkState (open s) (config s) (configVersion s) (socket s) (connected s)
    (pendingConfig s)
    b (isLoadingCameras s) (isInitializingCamera s)
    (isRestoringCamera s) (isClosingModal s) (pendingTabChange s)
    (initializationTimeout s) (previousCameraId s) (selectedCameraId s)
    (activeTab s) (timers s) (nextTimer s) (effects s).

Definition setIsLoadingCameras (b : bool) (s : State) : State :=
  mkState (open s) (config s) (configVersion s) (socket s) (connected s)
    (pendingConfig s)
    (hasChanges s) b (isInitializingCamera s)
    (isRestoringCamera s) (isClosingModal s) (pendingTabChange s)
    (initializationTimeout s) (previousCameraId s) (selectedCameraId s)
    (activeTab s) (timers s) (nextTimer s) (effects s).

Definition setIsInitializingCamera (b : bool) (s : State) : State :=
  mkState (open s) (config s) (configVersion s) (socket s) (connected s)
    (pendingConfig s)
    (hasChanges s) (isLoadingCameras s) b
    (isRestoringCamera s) (isClosingModal s) (pendingTabChange s)
    (initializationTimeout s) (previousCameraId s) (selectedCameraId s)
    (activeTab s) (timers s) (nextTimer s) (effects s).

Definition setIsRestoringCamera (b : bool) (s : State) : State :=
  mkState (open s) (config s) (configVersion s) (socket s) (connected s)
    (pendingConfig s)
    (hasChanges s) (isLoadingCameras s) (isInitializingCamera s)
    b (isClosingModal s) (pendingTabChange s)
    (initializationTimeout s) (previousCameraId s) (selectedCameraId s)
    (activeTab s) (timers s) (nextTimer s) (effects s).

Definition setIsClosingModal (b : bool) (s : State) : State :=
  mkState (open s) (config s) (configVersion s) (socket s) (connected s)
    (pendingConfig s)
    (hasChanges s) (isLoadingCameras s) (isInitializingCamera s)
    (isRestoringCamera s) b (pendingTabChange s)
    (initializationTimeout s) (previousCameraId s) (selectedCameraId s)
    (activeTab s) (timers s) (nextTimer s) (effects s).

Definition setPendingTabChange (t : option string) (s : State) : State :=
  mkState (open s) (config s) (configVersion s) (socket s) (connected s)
    (pendingConfig s)
    (hasChanges s) (isLoadingCameras s) (isInitializingCamera s)
    (isRestoringCamera s) (isClosingModal s) t
    (initializationTimeout s) (previousCameraId s) (selectedCameraId s)
    (activeTab s) (timers s) (nextTimer s) (effects s).

Definition setInitializationTimeout (t : option nat) (s : State) : State :=
  mkState (open s) (config s) (configVersion s) (socket s) (connected s)
    (pendingConfig s)
    (hasChanges s) (isLoadingCameras s) (isInitializingCamera s)
    (isRestoringCamera s) (isClosingModal s) (pendingTabChange s)
    t (previousCameraId s) (selectedCameraId s)
    (activeTab s) (timers s) (nextTimer s) (effects s).

Definition setPreviousCameraId (z : Z) (s : State) : State :=
  mkState (open s) (config s) (configVersion s) (socket s) (connected s)
    (pendingConfig s)
    (hasChanges s) (isLoadingCameras s) (isInitializingCamera s)
    (isRestoringCamera s) (isClosingModal s) (pendingTabChange s)
    (initializationTimeout s) z (selectedCameraId s)
    (activeTab s) (timers s) (nextTimer s) (effects s).

Definition setSelectedCameraId (z : Z) (s : State) : State :=
  mkState (open s) (config s) (configVersion s) (socket s) (connected s)
    (pendingConfig s)
    (hasChanges s) (isLoadingCameras s) (isInitializingCamera s)
    (isRestoringCamera s) (isClosingModal s) (pendingTabChange s)
    (initializationTimeout s) (previousCameraId s) z
    (activeTab s) (timers s) (nextTimer s) (effects s).

Definition setActiveTab (t : string) (s : State) : State :=
  mkState (open s) (config s) (configVersion s) (socket s) (connected s)
    (pendingConfig s)
    (hasChanges s) (isLoadingCameras s) (isInitializingCamera s)
    (isRestoringCamera s) (isClosingModal s) (pendingTabChange s)
    (initializationTimeout s) (previousCameraId s) (selectedCameraId s)
    t (timers s) (nextTimer s) (effects s).

Definition setTimers (l : list (nat * TimerCallback)) (n : nat) (s : State)
  : State :=
  mkState (open s) (config s) (configVersion s) (socket s) (connected s)
    (pendingConfig s)
    (hasChanges s) (isLoadingCameras s) (isInitializingCamera s)
    (isRestoringCamera s) (isClosingModal s) (pendingTabChange s)
    (initializationTimeout s) (previousCameraId s) (selectedCameraId s)
    (activeTab s) l n (effects s).

(** Appends one entry to the effect log. *)
Definition perform (e : Effect) (s : State) : State :=
  mkState (open s) (config s) (configVersion s) (socket s) (connected s)
    (pendingConfig s)
    (hasChanges s) (isLoadingCameras s) (isInitializingCamera s)
    (isRestoringCamera s) (isClosingModal s) (pendingTabChange s)
    (initializationTimeout s) (previousCameraId s) (selectedCameraId s)
    (activeTab s) (timers s) (nextTimer s) (effects s ++ [e]).

(** *** Primitives of the environment *)

(** [socket.socket.emit(c)]; every call site guards it with
    [if (socket.socket)], written with [when] below. *)
Definition emit (c : Command) : State -> State := perform (Emit c).

(** [socket.showNotification(message)]. *)
Definition showNotification (message : string) : State -> State :=
  perform (ShowNotification message).

(** [socket.toggleSimulation(enabled)] of the socket hook:
    [socket?.emit('toggle_simulation', { enabled })]. *)
Definition toggleSimulation (c : State) (enabled : bool) : State -> State :=
  when (socket c) (emit (toggle_simulation enabled)).

(** [socket.setCameraEnabled(false)]; the hook always provides the setter, so
    the guard [if (socket.setCameraEnabled)] holds. *)
Definition setCameraEnabled (enabled : bool) : State -> State :=
  perform (SetCameraEnabled enabled).

(** [handleClose = onClose || (() => setInternalOpen(false))]: in both modes
    the boolean that controls [open] becomes false. *)
Definition handleClose : State -> State :=
  perform HandleClose ;; setOpen false.

(** [const timeoutId = setTimeout(cb, delay); k(timeoutId)].  Browser timer
    identifiers are positive, hence truthy. *)
Definition setTimeout (cb : TimerCallback) (delay : Z)
  (k : nat -> State -> State) : State -> State :=
  fun s =>
    let id := nextTimer s in
    k id (perform (SetTimeout id delay)
            (setTimers (timers s ++ [(id, cb)]) (S id) s)).

(** Removes a timer from a timer table. *)
Fixpoint remove_timer (id : nat) (l : list (nat * TimerCallback))
  : list (nat * TimerCallback) :=
  match l with
  | [] => []
  | (i, cb) :: l' =>
      if Nat.eqb i id then remove_timer id l' else (i, cb) :: remove_timer id l'
  end.

(** Looks a timer up in a timer table. *)
Fixpoint find_timer (id : nat) (l : list (nat * TimerCallback))
  : option TimerCallback :=
  match l with
  | [] => None
  | (i, cb) :: l' => if Nat.eqb i id then Some cb else find_timer id l'
  end.

(** [clearTimeout(id)]. *)
Definition clearTimeout (id : nat) : State -> State :=
  fun s => perform (ClearTimeout id)
             (setTimers (remove_timer id (timers s)) (nextTimer s) s).

(** *** The effect that runs when the view opens *)

(** [loadAvailableCameras]. *)
Definition loadAvailableCameras (c : State) : State -> State :=
  setIsLoadingCameras true ;;
  if socket c && connected c
  then emit get_available_cameras
  else setIsLoadingCameras false.

(** [loadModelsAndCameras].  [loadAvailableModels] starts with HTTP requests
    whose answers arrive in later turns of the event loop; of the two loaders
    only [loadAvailableCameras] acts within the effect. *)
Definition loadModelsAndCameras (c : State) : State -> State :=
  loadAvailableCameras c.

(** The body of [useEffect(..., [open, config, loadModelsAndCameras])]. *)
Definition openEffect (c : State) : State -> State :=
  match open c, config c with
  | true, Some cfg =>
      let currentCameraId := cameraId_or_0 cfg in
      setPreviousCameraId currentCameraId ;;
      setSelectedCameraId currentCameraId ;;
      when (socket c) (emit kill_camera_for_config) ;;
      setPendingConfig cfg ;;
      setHasChanges false ;;
      loadModelsAndCameras c
  | true, None =>
      setPreviousCameraId 0 ;;
      setSelectedCameraId 0 ;;
      when (socket c) (emit kill_camera_for_config) ;;
      setPendingConfig DEFAULT_CONFIG ;;
      setHasChanges false
  | false, _ => skip
  end.

(** After the batched updates of a handler the component re-renders; the
    effect runs when one of its dependencies differs from the previous
    render: [open], the identity of [config], or [loadModelsAndCameras],
    a [useCallback] chain that depends on [socket.socket] and so changes
    when the socket hook creates its socket. *)
Definition render (was_open : bool) (was_version : nat) (was_socket : bool)
  (s : State) : State :=
  if Bool.eqb was_open (open s) && Nat.eqb was_version (configVersion s)
     && Bool.eqb was_socket (socket s)
  then s
  else run openEffect s.

(** A handler followed by the re-render it causes: the effects whose
    dependencies the handler changed run again.  The cleanup of the effect
    that registers the socket handlers, which a re-render runs too, is the
    event [Rerender] below. *)
Definition react (h : State -> State) (s : State) : State :=
  render (open s) (configVersion s) (socket s) (h s).

(** The parent sets [isOpen] to true (or the component's own button sets
    [internalOpen]). *)
Definition openConfiguration : State -> State := setOpen true.

(** *** Socket event [camera_initialized] *)

Record CameraInitialized := mkCameraInitialized {
  success : bool;
  camera_id : option Z;
  error : option string
}.

(** [if (targetTab)]: a pending tab that is a non-empty string. *)
Definition truthy_tab (t : option string) : option string :=
  match t with
  | Some n => if truthy_string n then Some n else None
  | None => None
  end.

Definition handleCameraInitialized (data : CameraInitialized) (c : State)
  : State -> State :=
  let wasClosing := isClosingModal c in
  let wasRestoring := isRestoringCamera c in
  let targetTab := pendingTabChange c in
  match initializationTimeout c with
  | Some id => clearTimeout id ;; setInitializationTimeout None
  | None => skip
  end ;;
  setIsInitializingCamera false ;;
  setIsRestoringCamera false ;;
  setIsClosingModal false ;;
  setPendingTabChange None ;;
  if success data then
    if wasClosing then
      showNotification
        ("Camera " ++ template_number (camera_id data)
         ++ " berhasil diinisialisasi - silakan nyalakan kamera secara manual") ;;
      setCameraEnabled false ;;
      handleClose
    else if wasRestoring then
      match truthy_tab targetTab with
      | Some t =>
          showNotification
            ("Camera " ++ template_number (camera_id data)
             ++ " berhasil dikembalikan") ;;
          setActiveTab t
      | None =>
          showNotification
            ("Camera " ++ template_number (camera_id data)
             ++ " berhasil dikembalikan") ;;
          handleClose
      end
    else
      showNotification
        ("Camera " ++ template_number (camera_id data)
         ++ " berhasil diinisialisasi")
  else
    showNotification
      ("Gagal menginisialisasi kamera: " ++ template_string (error data)) ;;
    if wasClosing then handleClose
    else if wasRestoring then
      match truthy_tab targetTab with
      | Some t => setActiveTab t
      | None => handleClose
      end
    else skip.

(** *** Saving *)

(** How [await saveConfig(...)] settles: with the boolean the settings context
    returns, or by throwing into the [catch] of [handleSaveSettings]. *)
Inductive Awaited :=
| Fulfilled (ok : bool)
| Thrown.

(** [saveConfig] of the settings context: the write to the store, and on
    success the new [config] of the context. *)
Definition saveConfig (newConfig : AppConfig) (r : Awaited) : State -> State :=
  perform (SaveConfig newConfig) ;;
  match r with
  | Fulfilled true => setConfig (Some newConfig)
  | _ => skip
  end.

(** The callback of the 30 second timer of a save. *)
Definition saveTimeout : State -> State :=
  setIsClosingModal false ;;
  setIsInitializingCamera false ;;
  showNotification "Timeout menginisialisasi kamera - coba lagi" ;;
  setInitializationTimeout None.

Definition handleSaveSettings (r : Awaited) (c : State) : State -> State :=
  setIsClosingModal true ;;
  setIsInitializingCamera true ;;
  toggleSimulation c (simulation_enabled (pendingConfig c)) ;;
  let configWithSelectedCamera :=
    {| advanced_cameraId := Some (selectedCameraId c);
       advanced_model := advanced_model (pendingConfig c);
       simulation_enabled := simulation_enabled (pendingConfig c) |} in
  saveConfig configWithSelectedCamera r ;;
  match r with
  | Fulfilled true =>
      setHasChanges false ;;
      showNotification "Pengaturan berhasil disimpan" ;;
      if socket c then
        emit (initialize_camera (selectedCameraId c)) ;;
        setTimeout SaveTimeout 30000
          (fun timeoutId => setInitializationTimeout (Some timeoutId))
      else
        setIsClosingModal false ;;
        setIsInitializingCamera false ;;
        showNotification "Koneksi socket tidak tersedia"
  | Fulfilled false =>
      setIsClosingModal false ;;
      setIsInitializingCamera false ;;
      showNotification "Gagal menyimpan pengaturan"
  | Thrown =>
      setIsClosingModal false ;;
      setIsInitializingCamera false ;;
      showNotification "Terjadi kesalahan saat menyimpan pengaturan"
  end.

(** *** Closing the view and changing tabs *)

(** The callback of the 30 second timer of a restoration on close. *)
Definition closeRestoreTimeout : State -> State :=
  setIsRestoringCamera false ;;
  handleClose ;;
  showNotification "Timeout mengembalikan kamera - modal ditutup anyway" ;;
  setInitializationTimeout None.

Definition handleConfigClose (c : State) : State -> State :=
  if negb (selectedCameraId c =? previousCameraId c) then
    setIsRestoringCamera true ;;
    when (socket c)
      (emit (initialize_camera (previousCameraId c)) ;;
       setTimeout CloseRestoreTimeout 30000
         (fun timeoutId => setInitializationTimeout (Some timeoutId)))
  else handleClose.

Definition handleCameraSelection (cameraId : Z) : State -> State :=
  setSelectedCameraId cameraId.

(** The callback of the 30 second timer of a restoration on tab change. *)
Definition tabRestoreTimeout (newTab : string) : State -> State :=
  setIsRestoringCamera false ;;
  setPendingTabChange None ;;
  setActiveTab newTab ;;
  showNotification "Timeout mengembalikan kamera - tab berubah anyway" ;;
  setInitializationTimeout None.

Definition handleTabChange (newTab : string) (c : State) : State -> State :=
  if (activeTab c =? "model")%string && negb (newTab =? "model")%string
     && negb (selectedCameraId c =? previousCameraId c)
  then
    setIsRestoringCamera true ;;
    setPendingTabChange (Some newTab) ;;
    setSelectedCameraId (previousCameraId c) ;;
    when (socket c)
      (emit (initialize_camera (previousCameraId c)) ;;
       setTimeout (TabRestoreTimeout newTab) 30000
         (fun timeoutId => setInitializationTimeout (Some timeoutId)))
  else setActiveTab newTab.

(** *** Timers *)

Definition callback (cb : TimerCallback) : State -> State :=
  match cb with
  | SaveTimeout => saveTimeout
  | CloseRestoreTimeout => closeRestoreTimeout
  | TabRestoreTimeout newTab => tabRestoreTimeout newTab
  end.

(** The browser fires timer [id]: a timer that was cleared, or has fired
    already, is no longer in the table and nothing happens. *)
Definition fireTimer (id : nat) (s : State) : State :=
  match find_timer id (timers s) with
  | Some cb =>
      callback cb (setTimers (remove_timer id (timers s)) (nextTimer s) s)
  | None => s
  end.

(** The cleanup of the effect that registers the socket handlers.  That
    effect depends on [socket], a fresh object at every render, so its
    cleanup runs at every re-render; it clears the timer that the previous
    render had in [initializationTimeout] and leaves the state cell alone. *)
Definition effectCleanup (c : State) : State -> State :=
  match initializationTimeout c with
  | Some id => clearTimeout id
  | None => skip
  end.

(** *** Events of the component *)

(** [SocketCreated] is the mount effect of the socket hook: it creates the
    socket and stores it with [setSocket]; the hook never sets it back to
    null.  [Rerender] is the cleanup that a re-render runs: a re-render
    caused by the state updates of an effect, or by a state change in the
    socket hook (the notification that expires after three seconds, a cart
    update). *)
Inductive Event :=
| SocketCreated
| OpenConfiguration
| CameraInitializedEvent (data : CameraInitialized)
| SaveSettings (r : Awaited)
| ConfigClose
| CameraSelection (cameraId : Z)
| TabChange (newTab : string)
| TimerFires (id : nat)
| Rerender.

Definition handler (e : Event) : State -> State :=
  match e with
  | SocketCreated => setSocket true
  | OpenConfiguration => openConfiguration
  | CameraInitializedEvent data => run (handleCameraInitialized data)
  | SaveSettings r => run (handleSaveSettings r)
  | ConfigClose => run handleConfigClose
  | CameraSelection cameraId => handleCameraSelection cameraId
  | TabChange newTab => run (handleTabChange newTab)
  | TimerFires id => fireTimer id
  | Rerender => run effectCleanup
  end.

Definition step (s : State) (e : Event) : State := react (handler e) s.

(** The state after a sequence of events. *)
Definition steps (s : State) (l : list Event) : State := fold_left step l s.

(** *** Vocabulary of the claims *)

(** The commands that act on the camera device. *)
Definition hardware_command (c : Command) : bool :=
  match c with
  | kill_camera_for_config | initialize_camera _ => true
  | get_available_cameras | toggle_simulation _ => false
  end.

(** The commands a log contains, in order. *)
Definition commands (l : list Effect) : list Command :=
  flat_map (fun e => match e with
                     | Emit c => [c]
                     | _ => []
                     end) l.

(** What a transition appended to the log. *)
Definition added (s s' : State) : list Effect :=
  skipn (length (effects s)) (effects s').

(** The device the store has committed: [config.advanced?.cameraId || 0],
    and [0] while no configuration is loaded. *)
Definition committedCameraId (s : State) : Z :=
  match config s with
  | Some cfg => cameraId_or_0 cfg
  | None => 0
  end.

(** The camera commands a log contains, in order. *)
Definition hardware_commands (l : list Effect) : list Command :=
  flat_map (fun e => match e with
                     | Emit c => if hardware_command c then [c] else []
                     | _ => []
                     end) l.

(** The notifications a log contains, in order. *)
Definition notifications (l : list Effect) : list string :=
  flat_map (fun e => match e with
                     | ShowNotification m => [m]
                     | _ => []
                     end) l.

(** The notification of a [camera_initialized] event that completes nothing
    (the branch commented "Normal initialization", or a failure). *)
Definition plain_message (data : CameraInitialized) : string :=
  if success data
  then "Camera " ++ template_number (camera_id data)
       ++ " berhasil diinisialisasi"
  else "Gagal menginisialisasi kamera: " ++ template_string (error data).

(** The notification of a save that did not reach the camera. *)
Definition save_failure_message (r : Awaited) : string :=
  match r with
  | Fulfilled _ => "Gagal menyimpan pengaturan"
  | Thrown => "Terjadi kesalahan saat menyimpan pengaturan"
  end.

(** The configuration that [handleSaveSettings] writes. *)
Definition configWithSelectedCamera (s : State) : AppConfig :=
  {| advanced_cameraId := Some (selectedCameraId s);
     advanced_model := advanced_model (pendingConfig s);
     simulation_enabled := simulation_enabled (pendingConfig s) |}.

(** The user closes the view or changes the tab. *)
Definition close_or_tab_change (e : Event) : bool :=
  match e with
  | ConfigClose | TabChange _ => true
  | _ => false
  end.

(** The user picks a camera. *)
Definition is_selection (e : Event) : bool :=
  match e with
  | CameraSelection _ => true
  | _ => false
  end.

(** What can happen while the answer to a command is awaited and the user
    does nothing: re-renders, and the firing of timer [id]. *)
Definition awaiting (id : nat) (e : Event) : bool :=
  match e with
  | Rerender => true
  | TimerFires i => Nat.eqb i id
  | _ => false
  end.

(** No initialize or restore operation is pending: the flags that the
    [camera_initialized] handler and the timer callbacks clear are clear. *)
Definition resolved (s : State) : Prop :=
  isInitializingCamera s = false /\
  isRestoringCamera s = false /\
  isClosingModal s = false /\
  pendingTabChange s = None /\
  initializationTimeout s = None.

(** *** Scenarios *)

(** The component once its mount effects have run: the socket hook has
    created its socket, and the view is still closed. *)
Definition mounted (conn : bool) (cfg : option AppConfig) : State :=
  step (initial false conn cfg) SocketCreated.

(** The view was opened on a loaded configuration with camera 0 and camera 1
    was picked. *)
Definition picked_camera_1 : State :=
  steps (initial true true (Some DEFAULT_CONFIG))
    [OpenConfiguration; CameraSelection 1].

(** The view was opened on a loaded configuration with camera 0, camera 1 was
    picked and saved, and the store accepted the write. *)
Definition saved_camera_1 : State :=
  steps (initial true true (Some DEFAULT_CONFIG))
    [OpenConfiguration; CameraSelection 1; SaveSettings (Fulfilled true)].

(** ... and the callback of the timer of the save has run. *)
Definition save_timed_out : State :=
  step saved_camera_1 (TimerFires 1%nat).

(** The answer of the backend, when it comes. *)
Definition camera_1_ready : CameraInitialized :=
  {| success := true; camera_id := Some 1; error := None |}.

(** A component whose socket does not exist yet, with nothing loaded. *)
Definition no_socket : State := initial false false None.

(** The view is open on the model tab and camera 2 is picked instead of
    camera 0. *)
Definition picked_camera_2 : State :=
  steps (initial true true (Some DEFAULT_CONFIG))
    [OpenConfiguration; TabChange "model"; CameraSelection 2].

(** ... the view is closed, which starts the restoration of camera 0, and
    30 seconds pass without an answer from the backend: the timer of the
    restoration fires and closes the view. *)
Definition restore_timed_out : State :=
  steps picked_camera_2 [ConfigClose; TimerFires 1%nat].

(** The answer of the backend to the restoration, when it comes. *)
Definition camera_0_ready : CameraInitialized :=
  {| success := true; camera_id := Some 0; error := None |}.

(** *** Further handlers and vocabulary *)

(** The payload of the socket event [model_changed]. *)
Record ModelChanged := mkModelChanged {
  mc_success : bool;
  mc_model_path : option string;
  mc_error : option string
}.

(** The character [/]. *)
Definition slash : Ascii.ascii := Ascii.ascii_of_nat 47.

(** [path.split('/')]: the segments between the slashes, at least one. *)
Fixpoint split_slash (path : string) : list string :=
  match path with
  | EmptyString => [EmptyString]
  | String c rest =>
      if Ascii.eqb c slash then EmptyString :: split_slash rest
      else
        match split_slash rest with
        | segment :: segments => String c segment :: segments
        | [] => [String c EmptyString]
        end
  end.

(** [segments.pop()]. *)
Definition pop (segments : list string) : string := last segments EmptyString.

(** [data.model_path.split('/').pop() || data.model_path]. *)
Definition modelName (model_path : string) : string :=
  if truthy_string (pop (split_slash model_path))
  then pop (split_slash model_path)
  else model_path.

Definition handleModelChanged (data : ModelChanged) (c : State)
  : State -> State :=
  match mc_model_path data with
  | Some model_path =>
      if mc_success data && truthy_string model_path then
        showNotification
          ("Model berhasil diubah ke: " ++ modelName model_path) ;;
        setPendingConfig
          {| advanced_cameraId := advanced_cameraId (pendingConfig c);
             advanced_model := model_path;
             simulation_enabled := simulation_enabled (pendingConfig c) |} ;;
        setHasChanges true
      else
        showNotification
          ("Gagal mengubah model: " ++ template_string (mc_error data))
  | None =>
      showNotification
        ("Gagal mengubah model: " ++ template_string (mc_error data))
  end.

Definition handleResetChanges (c : State) : State -> State :=
  match config c with
  | Some cfg => setPendingConfig cfg ;; setHasChanges false
  | None => skip
  end.

(** A string that contains no slash. *)
Fixpoint no_slash (x : string) : bool :=
  match x with
  | EmptyString => true
  | String c rest => negb (Ascii.eqb c slash) && no_slash rest
  end.

(** The last character of a string is a slash. *)
Fixpoint ends_with_slash (x : string) : bool :=
  match x with
  | EmptyString => false
  | String c EmptyString => Ascii.eqb c slash
  | String _ rest => ends_with_slash rest
  end.

(** [segments.join('/')]. *)
Fixpoint join_slash (segments : list string) : string :=
  match segments with
  | [] => EmptyString
  | [segment] => segment
  | segment :: rest => segment ++ String slash (join_slash rest)
  end.

End ConfigWindow.

(** ** The checkout dialog *)

Module CheckoutModal.

Inductive PaymentStatus :=
| idle | creating | pending | success | failed | expired | cancelled.

Record PaymentData := mkPaymentData {
  transaction_id : string;
  order_id : string;
  snap_token : string;
  payment_url : string;
  qr_code_url : option string;
  expires_at : string;
  environment : string
}.

Record CartDetails := mkCartDetails {
  price : Z;
  quantity : Z
}.

(** The payload of a payment event; every field is optional. *)
Record PaymentEventData := mkPaymentEventData {
  ev_success : option bool;
  ev_error : option string;
  ev_snap_token : option string;
  ev_order_id : option string;
  ev_payment_url : option string;
  ev_transaction_id : option string;
  ev_qr_code_url : option string;
  ev_expires_at : option string;
  ev_environment : option string;
  ev_payment_successful : option bool;
  ev_payment_failed : option bool
}.

(** Commands emitted on the socket.  The items of [create_payment] are the
    entries of the cart, in order. *)
Inductive Command :=
| create_payment (items : list (string * CartDetails)) (total : Z)
| checkout_complete.

(** The callbacks handed to [setTimeout] outside [tryOpenSnap]. *)
Inductive TimerCallback :=
| CompleteAndReset
| CompleteCloseAndReset
| Reopen.

Inductive Effect :=
| Emit (c : Command)
| AppendSnapScript
| SnapPay (token : string)
| SetTimeout (id : nat) (delay : Z).

Record State := mkState {
  (* props and context *)
  open : bool;
  socket : bool;
  cart : list (string * CartDetails);
  total : Z;
  (* useState cells and the ref *)
  paymentStatus : PaymentStatus;
  paymentData : option PaymentData;
  errorMessage : string;
  timeRemaining : Z;
  snapPopupOpen : bool;
  snapScriptLoaded : bool;
  (* the browser's timer table and the log of effects *)
  timers : list (nat * TimerCallback);
  nextTimer : nat;
  effects : list Effect
}.

(** The state of a freshly mounted component. *)
Definition initial (sock : bool) (c : list (string * CartDetails)) (t : Z)
  : State :=
  {| open := false; socket := sock; cart := c; total := t;
     paymentStatus := idle; paymentData := None; errorMessage := "";
     timeRemaining := 0; snapPopupOpen := false; snapScriptLoaded := false;
     timers := []; nextTimer := 1%nat; effects := [] |}.

(** *** Setters *)

Definition setOpen (b : bool) (s : State) : State :=
  mkState b (socket s) (cart s) (total s) (paymentStatus s) (paymentData s)
    (errorMessage s) (timeRemaining s) (snapPopupOpen s) (snapScriptLoaded s)
    (timers s) (nextTimer s) (effects s).

Definition setPaymentStatus (p : PaymentStatus) (s : State) : State :=
  mkState (open s) (socket s) (cart s) (total s) p (paymentData s)
    (errorMessage s) (timeRemaining s) (snapPopupOpen s) (snapScriptLoaded s)
    (timers s) (nextTimer s) (effects s).

Definition setPaymentData (d : option PaymentData) (s : State) : State :=
  mkState (open s) (socket s) (cart s) (total s) (paymentStatus s) d
    (errorMessage s) (timeRemaining s) (snapPopupOpen s) (snapScriptLoaded s)
    (timers s) (nextTimer s) (effects s).

Definition setErrorMessage (m : string) (s : State) : State :=
  mkState (open s) (socket s) (cart s) (total s) (paymentStatus s)
    (paymentData s) m (timeRemaining s) (snapPopupOpen s)
    (snapScriptLoaded s) (timers s) (nextTimer s) (effects s).

Definition setTimeRemaining (t : Z) (s : State) : State :=
  mkState (open s) (socket s) (cart s) (total s) (paymentStatus s)
    (paymentData s) (errorMessage s) t (snapPopupOpen s)
    (snapScriptLoaded s) (timers s) (nextTimer s) (effects s).

Definition setSnapPopupOpen (b : bool) (s : State) : State :=
  mkState (open s) (socket s) (cart s) (total s) (paymentStatus s)
    (paymentData s) (errorMessage s) (timeRemaining s) b
    (snapScriptLoaded s) (timers s) (nextTimer s) (effects s).

Definition setSnapScriptLoaded (b : bool) (s : State) : State :=
  mkState (open s) (socket s) (cart s) (total s) (paymentStatus s)
    (paymentData s) (errorMessage s) (timeRemaining s) (snapPopupOpen s)
    b (timers s) (nextTimer s) (effects s).

Definition setTimers (l : list (nat * TimerCallback)) (n : nat) (s : State)
  : State :=
  mkState (open s) (socket s) (cart s) (total s) (paymentStatus s)
    (paymentData s) (errorMessage s) (timeRemaining s) (snapPopupOpen s)
    (snapScriptLoaded s) l n (effects s).

(** Appends one entry to the effect log. *)
Definition perform (e : Effect) (s : State) : State :=
  mkState (open s) (socket s) (cart s) (total s) (paymentStatus s)
    (paymentData s) (errorMessage s) (timeRemaining s) (snapPopupOpen s)
    (snapScriptLoaded s) (timers s) (nextTimer s) (effects s ++ [e]).

(** *** Primitives of the environment *)

(** [onOpenChange(b)]: the parent's [setShowCheckout]. *)
Definition onOpenChange (b : bool) : State -> State := setOpen b.

(** [socket.checkoutComplete()] of the socket hook:
    [socket?.emit('checkout_complete')]. *)
Definition checkoutComplete : State -> State :=
  fun s => when (socket s) (perform (Emit checkout_complete)) s.

(** [setTimeout(cb, delay)]. *)
Definition setTimeout (cb : TimerCallback) (delay : Z) : State -> State :=
  fun s =>
    let id := nextTimer s in
    perform (SetTimeout id delay)
      (setTimers (timers s ++ [(id, cb)]) (S id) s).

(** Removes a timer from a timer table. *)
Fixpoint remove_timer (id : nat) (l : list (nat * TimerCallback))
  : list (nat * TimerCallback) :=
  match l with
  | [] => []
  | (i, cb) :: l' =>
      if Nat.eqb i id then remove_timer id l' else (i, cb) :: remove_timer id l'
  end.

(** Looks a timer up in a timer table. *)
Fixpoint find_timer (id : nat) (l : list (nat * TimerCallback))
  : option TimerCallback :=
  match l with
  | [] => None
  | (i, cb) :: l' => if Nat.eqb i id then Some cb else find_timer id l'
  end.

(** What one call of [loadSnapScript] meets in the browser: whether the
    script element loads or errors, and whether [window.snap] is defined once
    the promise has resolved. *)
Record Browser := mkBrowser {
  script_loads : bool;
  window_snap : bool
}.

(** [loadSnapScript]: the state after the promise settled, and whether it
    resolved ([true]) or rejected ([false]). *)
Definition loadSnapScript (b : Browser) (s : State) : State * bool :=
  if snapScriptLoaded s then (s, true)
  else
    let s1 := perform AppendSnapScript s in
    if script_loads b then (setSnapScriptLoaded true s1, true)
    else (s1, false).

(** *** Handlers *)

Definition resetPaymentState : State -> State :=
  setPaymentStatus idle ;;
  setPaymentData None ;;
  setErrorMessage "" ;;
  setTimeRemaining 0 ;;
  setSnapPopupOpen false.

(** The body of [useEffect(..., [open])]. *)
Definition closeEffect (c : State) : State -> State :=
  when (negb (open c)) resetPaymentState.

(** After the batched updates of a handler the component re-renders; the
    effect with dependency [open] runs when [open] differs from its value at
    the previous render. *)
Definition render (was_open : bool) (s : State) : State :=
  if Bool.eqb was_open (open s) then s else run closeEffect s.

(** A handler followed by the re-render it causes. *)
Definition react (h : State -> State) (s : State) : State :=
  render (open s) (h s).

Definition handleCreatePayment (c : State) : State -> State :=
  setPaymentStatus creating ;;
  setErrorMessage "" ;;
  match cart c with
  | [] => setErrorMessage "Keranjang kosong" ;; setPaymentStatus idle
  | _ :: _ =>
      when (socket c) (perform (Emit (create_payment (cart c) (total c))))
  end.

(** The four callbacks passed to [window.snap.pay]; [handleOpenSnap] and
    [tryOpenSnap] pass the same four. *)
Definition onSuccess : State -> State :=
  setSnapPopupOpen false ;;
  setPaymentStatus success ;;
  setTimeout CompleteAndReset 3000.

Definition onPending : State -> State :=
  setPaymentStatus pending ;;
  setTimeout Reopen 500.

Definition onError : State -> State :=
  setSnapPopupOpen false ;;
  setErrorMessage "Pembayaran gagal" ;;
  setPaymentStatus failed ;;
  setTimeout Reopen 500.

Definition onClose : State -> State :=
  setSnapPopupOpen false ;;
  setTimeout Reopen 500.

(** The branch taken when [window.snap] is there: the widget opens.  The
    setters and [window.snap.pay] are taken to return normally. *)
Definition openWidget (token : string) : State -> State :=
  setSnapPopupOpen true ;;
  onOpenChange false ;;
  perform (SnapPay token).

Definition handleOpenSnap (b : Browser) (c : State) : State -> State :=
  match paymentData c with
  | None => skip
  | Some d =>
      if negb (truthy_string (snap_token d)) then skip
      else if snapPopupOpen c then skip
      else fun s =>
        let (s1, resolved) := loadSnapScript b s in
        if resolved then
          if window_snap b then openWidget (snap_token d) s1
          else (setErrorMessage "Snap script tidak tersedia" ;;
                setPaymentStatus failed) s1
        else (setSnapPopupOpen false ;;
              setErrorMessage "Gagal membuka halaman pembayaran" ;;
              setPaymentStatus failed) s1
  end.

(** A timer of [tryOpenSnap]: it is allotted an identifier and logged; its
    firing is part of [tryOpenSnap] below, not of the timer table. *)
Definition wait (delay : Z) : State -> State :=
  fun s =>
    perform (SetTimeout (nextTimer s) delay)
      (setTimers (timers s) (S (nextTimer s)) s).

(** [if (attempt < 3) setTimeout(() => tryOpenSnap(attempt + 1), 1000)]: the
    state, and whether the retry was scheduled. *)
Definition retry (attempt : nat) (s : State) : State * bool :=
  if (attempt <? 3)%nat then (wait 1000 s, true) else (s, false).

(** One invocation of [tryOpenSnap(attempt)]: the new state, and whether a
    further invocation was scheduled. *)
Definition tryOpenSnap_body (b : Browser) (token : string) (attempt : nat)
  (s : State) : State * bool :=
  let s0 := wait 800 s in
  if truthy_string token then
    let (s1, resolved) := loadSnapScript b s0 in
    if resolved then
      if window_snap b then (openWidget token s1, false)
      else retry attempt s1
    else retry attempt s1
  else (s0, false).

Lemma tryOpenSnap_body_retry b token attempt s s' :
  tryOpenSnap_body b token attempt s = (s', true) -> (attempt < 3)%nat.
Proof.
  unfold tryOpenSnap_body, retry.
  destruct (truthy_string token); [|discriminate].
  destruct (loadSnapScript b (wait 800 s)) as [s1 [|]];
    [destruct (window_snap b); [discriminate|]|];
    destruct (Nat.ltb_spec attempt 3); intros E;
    (assumption || discriminate).
Qed.

(** [tryOpenSnap(attempt)], followed through the retries it schedules.
    [browser n] is what the [n]-th invocation meets.  The result is the final
    state and the attempt numbers of the invocations made, in order. *)
Equations? tryOpenSnap (browser : nat -> Browser) (token : string)
  (attempt : nat) (s : State) : State * list nat
  by wf (3 - attempt)%nat lt :=
  tryOpenSnap browser token attempt s
    with inspect (tryOpenSnap_body (browser attempt) token attempt s) := {
    | @exist (s', true) _ =>
        let r := tryOpenSnap browser token (S attempt) s' in
        (fst r, attempt :: snd r)
    | @exist (s', false) _ => (s', [attempt]) }.
Proof.
  apply tryOpenSnap_body_retry in e.
  destruct attempt as [|[|[|attempt]]]; lia.
Qed.

(** *** Socket events *)

(** [handlePaymentCreated], for an event whose [expires_at] parses as a
    date: [expiresAt] and [now] are the millisecond readings of
    [new Date(data.expires_at)] and [new Date()] (a string that does not
    parse gives NaN, which is outside this model).  [browser] is what the
    invocations of [tryOpenSnap] meet; they are followed through here as if
    nothing happened during their waits. *)
Definition handlePaymentCreated (data : PaymentEventData)
  (expiresAt now : Z) (browser : nat -> Browser) : State -> State :=
  match ev_snap_token data, ev_order_id data, ev_transaction_id data,
        ev_payment_url data, ev_expires_at data, ev_environment data with
  | Some token, Some order, Some transaction, Some url, Some expires,
    Some env =>
      if truthy_flag (ev_success data) && truthy_string token
         && truthy_string order && truthy_string transaction
         && truthy_string url && truthy_string expires && truthy_string env
      then
        setPaymentData
          (Some {| transaction_id := transaction; order_id := order;
                   snap_token := token; payment_url := url;
                   qr_code_url := ev_qr_code_url data;
                   expires_at := expires; environment := env |}) ;;
        setPaymentStatus pending ;;
        setTimeRemaining (Z.max 0 ((expiresAt - now) / 1000)) ;;
        (fun s => fst (tryOpenSnap browser token 1 s))
      else skip
  | _, _, _, _, _, _ => skip
  end.

Definition handlePaymentError (data : PaymentEventData) : State -> State :=
  setErrorMessage
    (if truthy_field (ev_error data) then template_string (ev_error data)
     else "Gagal membuat pembayaran") ;;
  setPaymentStatus failed.

Definition handlePaymentStatusUpdate (data : PaymentEventData)
  : State -> State :=
  if truthy_flag (ev_payment_successful data) then
    setPaymentStatus success ;;
    setTimeout CompleteCloseAndReset 3000
  else if truthy_flag (ev_payment_failed data) then
    setPaymentStatus failed ;;
    setErrorMessage "Pembayaran gagal atau dibatalkan"
  else skip.

Definition handlePaymentCompleted : State -> State :=
  setPaymentStatus success ;;
  setTimeout CompleteCloseAndReset 3000.

(** *** The countdown *)

(** One firing of the one-second interval.  The interval exists only while
    [timeRemaining] is positive; its updater reads the live value. *)
Definition countdownTick : State -> State :=
  fun s =>
    if timeRemaining s <=? 0 then s
    else if timeRemaining s <=? 1 then
      (setPaymentStatus expired ;;
       setErrorMessage "Waktu pembayaran habis" ;;
       setTimeRemaining 0) s
    else setTimeRemaining (timeRemaining s - 1) s.

(** *** Buttons of the dialog *)

(** "Buat Pembayaran Baru". *)
Definition newPayment : State -> State :=
  setSnapPopupOpen false ;;
  setPaymentStatus idle.

(** "Coba Lagi". *)
Definition tryAgain : State -> State := setPaymentStatus idle.

(** *** Timers *)

Definition callback (cb : TimerCallback) : State -> State :=
  match cb with
  | CompleteAndReset => checkoutComplete ;; resetPaymentState
  | CompleteCloseAndReset =>
      checkoutComplete ;; onOpenChange false ;; resetPaymentState
  | Reopen => onOpenChange true
  end.

(** The browser fires timer [id]; no timer of this component is ever
    cleared. *)
Definition fireTimer (id : nat) (s : State) : State :=
  match find_timer id (timers s) with
  | Some cb =>
      callback cb (setTimers (remove_timer id (timers s)) (nextTimer s) s)
  | None => s
  end.

(** *** Events of the component *)

(** [OpenSnap] and [PaymentCreated] follow their handler through its awaits
    (the load of the script, the 800 ms wait, the retries) in one step, as
    when nothing else happens in between.  [WidgetOpens token] is the part
    of both that opens the widget, once [await loadSnapScript()] has
    returned and [window.snap] is there, as a step of its own: it meets
    the component in whatever state it is by then. *)
Inductive Event :=
| OpenChange (b : bool)
| CreatePayment
| OpenSnap (b : Browser)
| PaymentCreated (data : PaymentEventData) (expiresAt now : Z)
    (browser : nat -> Browser)
| PaymentError (data : PaymentEventData)
| PaymentStatusUpdate (data : PaymentEventData)
| PaymentCompleted
| SnapSuccess
| SnapPending
| SnapError
| SnapClose
| CountdownTick
| NewPayment
| TryAgain
| TimerFires (id : nat)
| WidgetOpens (token : string).

(** The socket handlers are registered only when [socket.socket] exists. *)
Definition on_socket (h : State -> State) : State -> State :=
  fun s => when (socket s) h s.

Definition handler (e : Event) : State -> State :=
  match e with
  | OpenChange b => onOpenChange b
  | CreatePayment => run handleCreatePayment
  | OpenSnap b => run (handleOpenSnap b)
  | PaymentCreated data expiresAt now browser =>
      on_socket (handlePaymentCreated data expiresAt now browser)
  | PaymentError data => on_socket (handlePaymentError data)
  | PaymentStatusUpdate data => on_socket (handlePaymentStatusUpdate data)
  | PaymentCompleted => on_socket handlePaymentCompleted
  | SnapSuccess => onSuccess
  | SnapPending => onPending
  | SnapError => onError
  | SnapClose => onClose
  | CountdownTick => countdownTick
  | NewPayment => newPayment
  | TryAgain => tryAgain
  | TimerFires id => fireTimer id
  | WidgetOpens token => openWidget token
  end.

Definition step (s : State) (e : Event) : State := react (handler e) s.

(** The state after a sequence of events. *)
Definition steps (s : State) (l : list Event) : State := fold_left step l s.

(** *** Vocabulary of the claims *)

(** The number of [checkout_complete] commands in a log. *)
Definition cart_clears (l : list Effect) : nat :=
  length (filter (fun e => match e with
                           | Emit checkout_complete => true
                           | _ => false
                           end) l).

(** The tokens the widget was opened with, in order. *)
Definition widget_opens (l : list Effect) : list string :=
  flat_map (fun e => match e with
                     | SnapPay token => [token]
                     | _ => []
                     end) l.

(** The delays of the timers a log contains, in order. *)
Definition delays (l : list Effect) : list Z :=
  flat_map (fun e => match e with
                     | SetTimeout _ d => [d]
                     | _ => []
                     end) l.

(** What a transition appended to the log. *)
Definition added (s s' : State) : list Effect :=
  skipn (length (effects s)) (effects s').

(** [n] firings of the countdown. *)
Fixpoint countdown (n : nat) (s : State) : State :=
  match n with
  | O => s
  | S n' => countdown n' (step s CountdownTick)
  end.

(** What the last firing of the countdown does. *)
Definition expire : State -> State :=
  setPaymentStatus expired ;;
  setErrorMessage "Waktu pembayaran habis" ;;
  setTimeRemaining 0.

(** The gateway events that report a successful payment. *)
Definition success_event (e : Event) : bool :=
  match e with
  | PaymentStatusUpdate data => truthy_flag (ev_payment_successful data)
  | PaymentCompleted => true
  | _ => false
  end.

(** The session as [resetPaymentState] leaves it. *)
Definition session_reset (s : State) : Prop :=
  paymentStatus s = idle /\
  paymentData s = None /\
  timeRemaining s = 0 /\
  snapPopupOpen s = false.

(** *** Scenarios *)

Definition one_item : list (string * CartDetails) :=
  [("Aqua", {| price := 5000; quantity := 2 |})].

(** A complete [payment_created] payload. *)
Definition created : PaymentEventData :=
  {| ev_success := Some true; ev_error := None;
     ev_snap_token := Some "token-1"; ev_order_id := Some "order-1";
     ev_payment_url := Some "https://pay"; ev_transaction_id := Some "tx-1";
     ev_qr_code_url := None; ev_expires_at := Some "2026-01-01T00:15:00Z";
     ev_environment := Some "sandbox";
     ev_payment_successful := None; ev_payment_failed := None |}.

(** A [payment_status_update] that reports success. *)
Definition paid : PaymentEventData :=
  {| ev_success := None; ev_error := None; ev_snap_token := None;
     ev_order_id := None; ev_payment_url := None; ev_transaction_id := None;
     ev_qr_code_url := None; ev_expires_at := None; ev_environment := None;
     ev_payment_successful := Some true; ev_payment_failed := None |}.

(** A browser in which the Snap script loads at once. *)
Definition snap_ready : nat -> Browser :=
  fun _ => {| script_loads := true; window_snap := true |}.

(** A browser in which [window.snap] appears at the third invocation. *)
Definition snap_late : nat -> Browser :=
  fun n => {| script_loads := true; window_snap := (3 <=? n)%nat |}.

(** The user starts a payment and closes the dialog before the gateway
    answers. *)
Definition awaiting_gateway : State :=
  steps (initial true one_item 10000)
    [OpenChange true; CreatePayment; OpenChange false].

(** ... then the transaction is created, expiring in [seconds] seconds, and
    the widget opens over the closed dialog. *)
Definition widget_over_closed_dialog (seconds : Z) : State :=
  step awaiting_gateway
    (PaymentCreated created (seconds * 1000) 0 snap_ready).

(** The dialog is open on a pending payment whose widget was closed. *)
Definition pending_in_dialog : State :=
  steps (widget_over_closed_dialog 900) [SnapClose; TimerFires 2%nat].

(** *** Further vocabulary *)

(** Every timer of the table was handed out before [nextTimer]. *)
Definition timers_fresh (s : State) : Prop :=
  Forall (fun t => (fst t < nextTimer s)%nat) (timers s).

(** The number of script elements a log appended to the document. *)
Definition script_appends (l : list Effect) : nat :=
  length (filter (fun e => match e with
                           | AppendSnapScript => true
                           | _ => false
                           end) l).

(** The payload of a [payment_created] event reports success and carries a
    non-empty token, order, transaction, URL, expiry and environment. *)
Definition payload_complete (data : PaymentEventData) : bool :=
  truthy_flag (ev_success data) && truthy_field (ev_snap_token data)
  && truthy_field (ev_order_id data) && truthy_field (ev_transaction_id data)
  && truthy_field (ev_payment_url data) && truthy_field (ev_expires_at data)
  && truthy_field (ev_environment data).

(** The re-open button can open the widget: there is payment data with a
    token, and no widget is marked open. *)
Definition can_reopen (s : State) : bool :=
  match paymentData s with
  | Some d => truthy_string (snap_token d) && negb (snapPopupOpen s)
  | None => false
  end.

(** What [tryOpenSnap] and the handlers around it leave alone. *)
Definition frame (s s' : State) : Prop :=
  timers s' = timers s /\
  (nextTimer s <= nextTimer s')%nat /\
  timeRemaining s' = timeRemaining s /\
  paymentStatus s' = paymentStatus s /\
  paymentData s' = paymentData s /\
  socket s' = socket s /\
  (snapScriptLoaded s = true ->
   snapScriptLoaded s' = true /\
   script_appends (effects s') = script_appends (effects s)).

(** What every step keeps: the timer table changes in one of three ways,
    the remaining time does not become negative, and a script that is
    loaded stays loaded and is not appended again. *)
Definition keeps (s s' : State) : Prop :=
  ((timers s' = timers s /\ (nextTimer s <= nextTimer s')%nat) \/
   (exists id, timers s' = remove_timer id (timers s) /\
               nextTimer s' = nextTimer s) \/
   (exists cb, timers s' = (timers s ++ [(nextTimer s, cb)])%list /\
               nextTimer s' = S (nextTimer s))) /\
  (0 <= timeRemaining s -> 0 <= timeRemaining s') /\
  (snapScriptLoaded s = true ->
   snapScriptLoaded s' = true /\
   script_appends (effects s') = script_appends (effects s)).

(** While the dialog shows a failure ([failed] or [expired]) there is a
    message to show with it. *)
Definition error_shown (s : State) : Prop :=
  match paymentStatus s with
  | failed | expired => errorMessage s <> ""
  | _ => True
  end.

End CheckoutModal.

(** * Properties of the camera coordinator *)

Section CameraCoordinator.
Import ConfigWindow.
Local Arguments String.append : simpl never.

(** Evaluates a transition of the configuration window on a state given as
    a record, innermost setter first; comparisons of numbers and strings,
    list operations and string concatenation are left as they are. *)
Ltac cw_unfold :=
  cbv beta iota zeta delta
    [step react render handler run openConfiguration openEffect
     handleCameraInitialized handleSaveSettings handleConfigClose
     handleTabChange handleCameraSelection fireTimer callback
     saveTimeout closeRestoreTimeout tabRestoreTimeout saveConfig
     loadModelsAndCameras loadAvailableCameras toggleSimulation
     setCameraEnabled handleClose showNotification emit setTimeout
     clearTimeout effectCleanup when skip seq
     setOpen setConfig setSocket setPendingConfig setHasChanges
     setIsLoadingCameras setIsInitializingCamera setIsRestoringCamera
     setIsClosingModal setPendingTabChange setInitializationTimeout
     setPreviousCameraId setSelectedCameraId setActiveTab setTimers perform
     open config configVersion socket connected pendingConfig hasChanges
     isLoadingCameras isInitializingCamera isRestoringCamera isClosingModal
     pendingTabChange initializationTimeout previousCameraId
     selectedCameraId activeTab timers nextTimer effects
     cameraId_or_0 advanced_cameraId advanced_model simulation_enabled
     committedCameraId configWithSelectedCamera added resolved
     truthy_tab truthy_string plain_message save_failure_message
     success camera_id error
     andb negb Bool.eqb].

(** The same in a hypothesis. *)
Tactic Notation "cw_unfold" "in" hyp(H) :=
  cbv beta iota zeta delta
    [step react render handler run openConfiguration openEffect
     handleCameraInitialized handleSaveSettings handleConfigClose
     handleTabChange handleCameraSelection fireTimer callback
     saveTimeout closeRestoreTimeout tabRestoreTimeout saveConfig
     loadModelsAndCameras loadAvailableCameras toggleSimulation
     setCameraEnabled handleClose showNotification emit setTimeout
     clearTimeout effectCleanup when skip seq
     setOpen setConfig setSocket setPendingConfig setHasChanges
     setIsLoadingCameras setIsInitializingCamera setIsRestoringCamera
     setIsClosingModal setPendingTabChange setInitializationTimeout
     setPreviousCameraId setSelectedCameraId setActiveTab setTimers perform
     open config configVersion socket connected pendingConfig hasChanges
     isLoadingCameras isInitializingCamera isRestoringCamera isClosingModal
     pendingTabChange initializationTimeout previousCameraId
     selectedCameraId activeTab timers nextTimer effects
     cameraId_or_0 advanced_cameraId advanced_model simulation_enabled
     committedCameraId configWithSelectedCamera added resolved
     truthy_tab truthy_string plain_message save_failure_message
     success camera_id error
     andb negb Bool.eqb] in H.

(** The comparison of the socket of a render with itself, as [cw_unfold]
    leaves it. *)
Lemma same_socket (b : bool) :
  (if b then if b then true else false else if b then false else true)
  = true.
Proof. destruct b; reflexivity. Qed.

(** Settles the comparisons of a render on the identity of [config] and on
    the socket. *)
Ltac same_render :=
  rewrite ?Nat.eqb_refl;
  repeat match goal with
         | |- context [(?v =? S ?v)%nat] =>
             replace (v =? S v)%nat with false
               by (symmetry; apply Nat.eqb_neq; lia)
         end;
  cbv beta iota;
  rewrite ?same_socket;
  cbv beta iota.

Lemma skipn_length_app {A : Type} (l l' : list A) :
  skipn (length l) (l ++ l') = l'.
Proof. induction l; cbn; auto. Qed.

Lemma find_timer_fresh (id : nat) (cb : TimerCallback)
  (l : list (nat * TimerCallback)) :
  find_timer id l = None -> find_timer id (l ++ [(id, cb)]) = Some cb.
Proof.
  induction l as [|[i c] l IH]; cbn.
  - now rewrite Nat.eqb_refl.
  - destruct (Nat.eqb i id); [discriminate | exact IH].
Qed.

Lemma commands_app (l l' : list Effect) :
  commands (l ++ l') = (commands l ++ commands l')%list.
Proof. apply flat_map_app. Qed.

(** After a [camera_initialized] event nothing is pending any more. *)
Lemma camera_initialized_resolves (s : State) (d : CameraInitialized) :
  resolved (step s (CameraInitializedEvent d)).
Proof.
  destruct s as [o cfg v sk cn pc hc lc ii ir ic pt it pv sl tb tm nt ef].
  destruct d as [[|] cid err], it, ic, ir, pt as [[|a t]|], o;
    cw_unfold; same_render; repeat split.
Qed.

(** C1, as the code has it: a [camera_initialized] event that arrives when
    nothing is pending (the 30 second timer has fired and cleared the flags,
    or an earlier event was handled) closes nothing, changes no tab and no
    flag and starts no timer, but it does show one notification: the state
    afterwards is the state before with that notification appended to the
    log, and it is again a state with nothing pending. *)
Theorem late_camera_initialized_only_notifies
  (s : State) (d : CameraInitialized) :
  resolved s ->
  step s (CameraInitializedEvent d) = showNotification (plain_message d) s /\
  resolved (step s (CameraInitializedEvent d)).
Proof.
  intros R. split; [|apply camera_initialized_resolves].
  destruct s as [o cfg v sk cn pc hc lc ii ir ic pt it pv sl tb tm nt ef].
  destruct R as (Hi & Hr & Hc & Hp & Ht).
  cbn in Hi, Hr, Hc, Hp, Ht. subst.
  unfold plain_message.
  destruct d as [[|] cid err], o; cw_unfold; same_render; reflexivity.
Qed.

(** C1, the claim as stated fails: after the timer of a restoration has
    fired and closed the view nothing is pending, yet the late
    [camera_initialized] event shows a notification. *)
Lemma late_camera_initialized_notifies :
  resolved restore_timed_out /\
  open restore_timed_out = false /\
  added restore_timed_out
    (step restore_timed_out (CameraInitializedEvent camera_0_ready))
  = [ShowNotification "Camera 0 berhasil diinisialisasi"].
Proof. vm_compute. repeat split. Qed.

Lemma late_camera_initialized_only_notifies_witness :
  resolved restore_timed_out /\
  step restore_timed_out (CameraInitializedEvent camera_0_ready)
  = showNotification (plain_message camera_0_ready) restore_timed_out /\
  resolved (step restore_timed_out (CameraInitializedEvent camera_0_ready)).
Proof.
  split.
  - vm_compute. repeat split.
  - apply (late_camera_initialized_only_notifies restore_timed_out
             camera_0_ready).
    vm_compute. repeat split.
Defined.

(** *** The timer of a save *)

(** Evaluates the dispatch of an event, leaving the handler bodies and the
    render folded. *)
Ltac cw_head :=
  cbv beta iota zeta delta
    [step react handler fireTimer run timers nextTimer].

Lemma find_timer_removed (id : nat) (l : list (nat * TimerCallback)) :
  find_timer id (remove_timer id l) = None.
Proof.
  induction l as [|[i c] l IH]; cbn; [reflexivity |].
  destruct (Nat.eqb i id) eqn:E; [exact IH |].
  cbn. now rewrite E.
Qed.

(** Clearing a timer leaves the others as they are. *)
Lemma find_timer_remove_timer (id id' : nat)
  (l : list (nat * TimerCallback)) :
  find_timer id (remove_timer id' l)
  = if Nat.eqb id id' then None else find_timer id l.
Proof.
  induction l as [|[i c] l IH]; cbn.
  - now destruct (Nat.eqb id id').
  - destruct (Nat.eqb_spec i id') as [-> | Hi].
    + rewrite IH. destruct (Nat.eqb_spec id id') as [-> | Hd];
        [reflexivity |].
      destruct (Nat.eqb_spec id' id); [congruence | reflexivity].
    + cbn. destruct (Nat.eqb_spec i id) as [-> | Hd].
      * destruct (Nat.eqb_spec id id'); [congruence | reflexivity].
      * exact IH.
Qed.

Lemma notifications_app (l l' : list Effect) :
  notifications (l ++ l') = (notifications l ++ notifications l')%list.
Proof. apply flat_map_app. Qed.



(** One event while the answer is awaited: the view stays as it is and the
    configuration too, nothing is emitted, and either the callback of the
    timer did not run, or it ran now: it clears the two flags and shows its
    notification. *)
Lemma awaiting_step (id : nat) (x : State) (e : Event) :
  awaiting id e = true ->
  find_timer id (timers x) = Some SaveTimeout \/
  find_timer id (timers x) = None ->
  exists l,
    effects (step x e) = (effects x ++ l)%list /\
    commands l = [] /\
    open (step x e) = open x /\
    config (step x e) = config x /\
    ((isClosingModal (step x e) = isClosingModal x /\
      isInitializingCamera (step x e) = isInitializingCamera x /\
      notifications l = [] /\
      (find_timer id (timers (step x e)) = Some SaveTimeout \/
       find_timer id (timers (step x e)) = None) /\
      (find_timer id (timers x) = None ->
       find_timer id (timers (step x e)) = None))
     \/
     (find_timer id (timers x) = Some SaveTimeout /\
      isClosingModal (step x e) = false /\
      isInitializingCamera (step x e) = false /\
      notifications l = ["Timeout menginisialisasi kamera - coba lagi"] /\
      find_timer id (timers (step x e)) = None)).
Proof.
  intros He Ht.
  destruct x as [o cfg v sk cn pc hc lc ii ir ic pt it pv sl tb tm nt ef].
  cbn [timers] in Ht.
  destruct e as [| | | | | | | i |]; try discriminate He.
  - (* the timer fires *)
    cbn [awaiting] in He. apply Nat.eqb_eq in He. subst i.
    destruct Ht as [Ht | Ht].
    + exists [ShowNotification "Timeout menginisialisasi kamera - coba lagi"].
      cw_head. rewrite Ht.
      destruct o; cw_unfold; same_render; rewrite find_timer_removed;
        repeat split; right; repeat split.
    + exists []. cw_head. rewrite Ht.
      destruct o; cw_unfold; same_render; rewrite app_nil_r;
        repeat split; left; repeat split; auto.
  - (* a re-render *)
    destruct it as [id'|].
    + exists [ClearTimeout id'].
      destruct o; cw_unfold; same_render;
        rewrite find_timer_remove_timer; repeat split; left; repeat split;
        destruct (Nat.eqb id id'); auto; intros H; rewrite H; auto.
    + exists [].
      destruct o; cw_unfold; same_render; rewrite app_nil_r;
        repeat split; left; repeat split; auto.
Qed.

(** The same for a sequence of such events. *)
Lemma awaiting_steps (id : nat) (l : list Event) (x : State) :
  Forall (fun e => awaiting id e = true) l ->
  find_timer id (timers x) = Some SaveTimeout \/
  find_timer id (timers x) = None ->
  exists la,
    effects (steps x l) = (effects x ++ la)%list /\
    commands la = [] /\
    open (steps x l) = open x /\
    config (steps x l) = config x /\
    ((isClosingModal (steps x l) = isClosingModal x /\
      isInitializingCamera (steps x l) = isInitializingCamera x /\
      notifications la = [] /\
      (find_timer id (timers x) = None ->
       find_timer id (timers (steps x l)) = None))
     \/
     (find_timer id (timers x) = Some SaveTimeout /\
      isClosingModal (steps x l) = false /\
      isInitializingCamera (steps x l) = false /\
      notifications la = ["Timeout menginisialisasi kamera - coba lagi"] /\
      find_timer id (timers (steps x l)) = None)).
Proof.
  intros Hl. revert x.
  induction Hl as [|e l He _ IH]; intros x Ht.
  - exists []. cbn [steps fold_left]. rewrite app_nil_r.
    repeat split. left. repeat split. auto.
  - change (steps x (e :: l)) with (steps (step x e) l).
    destruct (awaiting_step id x e He Ht)
      as (l1 & E1 & C1 & O1 & G1 & [(F1 & I1 & N1 & T1 & K1)
                                   | (S1 & F1 & I1 & N1 & T1)]).
    + destruct (IH (step x e) T1)
        as (l2 & E2 & C2 & O2 & G2 & [(F2 & I2 & N2 & K2)
                                     | (S2 & F2 & I2 & N2 & T2)]);
        exists (l1 ++ l2)%list;
        (split; [rewrite E2, E1; apply eq_sym, app_assoc |]);
        (split; [rewrite commands_app, C1, C2; reflexivity |]);
        (split; [congruence |]); (split; [congruence |]).
      * left. rewrite notifications_app, N1, N2.
        repeat split; try congruence. auto.
      * right. rewrite notifications_app, N1, N2.
        repeat split; try assumption.
        destruct Ht as [Ht | Ht]; [exact Ht |].
        rewrite (K1 Ht) in S2. discriminate S2.
    + destruct (IH (step x e) (or_intror T1))
        as (l2 & E2 & C2 & O2 & G2 & [(F2 & I2 & N2 & K2)
                                     | (S2 & _)]);
        [| rewrite T1 in S2; discriminate S2].
      exists (l1 ++ l2)%list.
      split; [rewrite E2, E1; apply eq_sym, app_assoc |].
      split; [rewrite commands_app, C1, C2; reflexivity |].
      split; [congruence |]. split; [congruence |].
      right. rewrite notifications_app, N1, N2.
      repeat split; try congruence. auto.
Qed.



(** X24: the timer that a save arms does not survive the next re-render:
    the cleanup of the effect that registers the socket handlers clears it.
    From then on, while no answer arrives and the user does nothing, the
    firing of the timer does nothing: the view stays open and blocked by
    [isClosingModal] and [isInitializingCamera], and no notification is
    shown. *)
Theorem save_timer_cancelled_by_rerender (s : State) (l : list Event) :
  socket s = true ->
  Forall (fun e => awaiting (nextTimer s) e = true) l ->
  let s1 := step s (SaveSettings (Fulfilled true)) in
  let s2 := steps s1 (Rerender :: l) in
  find_timer (nextTimer s) (timers s2) = None /\
  open s2 = open s /\
  isClosingModal s2 = true /\
  isInitializingCamera s2 = true /\
  notifications (added s1 s2) = [] /\
  commands (added s1 s2) = [].
Proof.
  intros Hs Hl. cbv zeta.
  change (steps ?x (Rerender :: l)) with (steps (step x Rerender) l).
  assert (R : exists x,
             x = step (step s (SaveSettings (Fulfilled true))) Rerender /\
             find_timer (nextTimer s) (timers x) = None /\
             open x = open s /\
             isClosingModal x = true /\
             isInitializingCamera x = true /\
             effects x
             = (effects (step s (SaveSettings (Fulfilled true)))
                  ++ [ClearTimeout (nextTimer s)])%list).
  { eexists. split; [reflexivity |].
    destruct s as [o cfg v sk cn pc hc lc ii ir ic pt it pv sl tb tm nt ef].
    cbn [socket nextTimer] in Hs |- *. subst sk.
    assert (Hv : (v =? S v)%nat = false) by (apply Nat.eqb_neq; lia).
    match goal with
    | |- context [step ?s0 (SaveSettings ?r)] =>
        remember (step s0 (SaveSettings r)) as s1 eqn:E1
    end.
    destruct o, cfg, cn; cw_unfold in E1; rewrite Hv in E1;
      cbv beta iota in E1; subst s1; cw_unfold; same_render;
      rewrite find_timer_removed; repeat split. }
  destruct R as (x & <- & T & O & F & I & E).
  destruct (awaiting_steps _ l x Hl (or_intror T))
    as (la & E2 & C2 & O2 & G2 & [(F2 & I2 & N2 & K2) | (S2 & _)]);
    [| rewrite T in S2; discriminate S2].
  assert (A : added (step s (SaveSettings (Fulfilled true))) (steps x l)
              = (ClearTimeout (nextTimer s) :: la)%list).
  { unfold added. rewrite E2, E, <- app_assoc. apply skipn_length_app. }
  rewrite A.
  change (notifications (ClearTimeout (nextTimer s) :: la))
    with (notifications la).
  change (commands (ClearTimeout (nextTimer s) :: la)) with (commands la).
  repeat split; try congruence. apply K2, T.
Qed.

Lemma save_timer_cancelled_by_rerender_witness :
  socket picked_camera_1 = true /\
  isClosingModal
    (steps (step picked_camera_1 (SaveSettings (Fulfilled true)))
       [Rerender; TimerFires (nextTimer picked_camera_1)]) = true.
Proof.
  split; [reflexivity |].
  assert (L : Forall (fun e => awaiting (nextTimer picked_camera_1) e = true)
                [TimerFires (nextTimer picked_camera_1)])
    by (repeat constructor).
  pose proof (save_timer_cancelled_by_rerender picked_camera_1
                [TimerFires (nextTimer picked_camera_1)] eq_refl L) as H.
  cbv zeta in H. destruct H as (_ & _ & H & _). exact H.
Defined.

(** *** Commands on close and on tab change *)

(** With nothing staged, closing is [handleClose]. *)
Lemma handleConfigClose_converged (c : State) :
  selectedCameraId c = previousCameraId c ->
  handleConfigClose c = handleClose.
Proof.
  intros H. unfold handleConfigClose. now rewrite H, Z.eqb_refl.
Qed.

(** With nothing staged, a tab change is [setActiveTab]. *)
Lemma handleTabChange_converged (newTab : string) (c : State) :
  selectedCameraId c = previousCameraId c ->
  handleTabChange newTab c = setActiveTab newTab.
Proof.
  intros H. unfold handleTabChange.
  now rewrite H, Z.eqb_refl, Bool.andb_false_r.
Qed.

(** C5: when the view is closed or the tab is changed while the selected
    camera equals the previous one, the handler emits no command at all on
    the socket; a close or tab change that does emit one had a selection
    that differs from the previous camera. *)
Theorem no_divergence_no_command (s : State) (e : Event) :
  close_or_tab_change e = true ->
  (selectedCameraId s = previousCameraId s ->
   commands (effects (step s e)) = commands (effects s)) /\
  (commands (effects (step s e)) <> commands (effects s) ->
   selectedCameraId s <> previousCameraId s).
Proof.
  intros He.
  assert (Hsame : selectedCameraId s = previousCameraId s ->
                  commands (effects (step s e)) = commands (effects s)).
  { intros Heq.
    destruct e; try discriminate; unfold step, react, handler, run.
    - rewrite (handleConfigClose_converged s Heq).
      destruct s as [o cfg v sk cn pc hc lc ii ir ic pt it pv sl tb tm nt ef].
      destruct o; cw_unfold; same_render; rewrite commands_app;
        apply app_nil_r.
    - rewrite (handleTabChange_converged newTab s Heq).
      destruct s as [o cfg v sk cn pc hc lc ii ir ic pt it pv sl tb tm nt ef].
      destruct o; cw_unfold; same_render; reflexivity. }
  split; [exact Hsame |].
  intros Hneq Heq. apply Hneq, Hsame, Heq.
Qed.

Lemma no_divergence_no_command_witness :
  close_or_tab_change ConfigClose = true /\
  selectedCameraId save_timed_out = previousCameraId save_timed_out /\
  commands (effects (step save_timed_out ConfigClose))
  = commands (effects save_timed_out).
Proof.
  split; [reflexivity | split; [reflexivity |]].
  apply (no_divergence_no_command save_timed_out ConfigClose eq_refl).
  reflexivity.
Defined.

(** *** Saving *)

(** Brings the log that a step appended into the form of a list. *)
Ltac added_list :=
  same_render; rewrite <- ?app_assoc; rewrite ?skipn_length_app;
  cbn [app].

(** C6: a save writes the configuration to the store before it emits any
    camera command; [initialize_camera] is emitted only after the store
    reported success, and then for the selected camera; a save whose store
    write fails (or throws) emits no camera command, leaves the context's
    configuration alone, clears the two loading flags and shows one error
    notification.  [toggle_simulation], which precedes the store write, is a
    mode switch of the backend and not a camera command. *)
Theorem save_persists_before_hardware (s : State) (r : Awaited) :
  let s' := step s (SaveSettings r) in
  (exists pre post,
      added s s' = (pre ++ SaveConfig (configWithSelectedCamera s) :: post)%list
      /\ hardware_commands pre = []) /\
  (forall z, In (Emit (initialize_camera z)) (added s s') ->
             r = Fulfilled true /\ z = selectedCameraId s) /\
  (r <> Fulfilled true ->
   hardware_commands (added s s') = [] /\
   config s' = config s /\
   isClosingModal s' = false /\
   isInitializingCamera s' = false /\
   notifications (added s s') = [save_failure_message r]).
Proof.
  destruct s as [o cfg v sk cn pc hc lc ii ir ic pt it pv sl tb tm nt ef].
  cbv zeta. split; [| split].
  - exists (if sk then [Emit (toggle_simulation (simulation_enabled pc))]
            else []).
    destruct r as [[|]|], sk, o, cfg, cn; cw_unfold; added_list;
      eexists; split; reflexivity.
  - intros z.
    destruct r as [[|]|], sk, o, cfg, cn; cw_unfold; added_list;
      cbn [In]; intros Hin;
      repeat match goal with
             | H : _ \/ _ |- _ => destruct H
             | H : False |- _ => destruct H
             | H : Emit _ = Emit _ |- _ => inversion H; clear H; subst
             | H : _ = Emit _ |- _ => discriminate H
             end; split; reflexivity.
  - intros Hr.
    destruct r as [[|]|]; [congruence | |];
      destruct sk, o; cw_unfold; added_list; repeat split.
Qed.

(** *** Opening the view *)

(** What the effect does when the view opens: it records the committed
    camera (camera 0 when no configuration is loaded) as [previousCameraId]
    and as the selection, whatever the flags of the component say, and it
    emits [kill_camera_for_config] under the guard [if (socket.socket)]. *)
Lemma opening_effect (s : State) :
  open s = false ->
  let s' := step s OpenConfiguration in
  open s' = true /\
  previousCameraId s' = committedCameraId s /\
  selectedCameraId s' = committedCameraId s /\
  hardware_commands (added s s')
  = (if socket s then [kill_camera_for_config] else []).
Proof.
  destruct s as [o cfg v sk cn pc hc lc ii ir ic pt it pv sl tb tm nt ef].
  cbn [open]. intros ->. cbv zeta.
  destruct cfg as [[[cam|] model sim]|], sk, cn; cw_unfold; added_list;
    rewrite ?skipn_all; repeat split.
Qed.

(** The socket hook never sets its socket back to null. *)
Lemma socket_stays (s : State) (e : Event) :
  socket s = true -> socket (step s e) = true.
Proof.
  intros Hs.
  destruct s as [o cfg v sk cn pc hc lc ii ir ic pt it pv sl tb tm nt ef].
  cbn [socket] in Hs. subst sk.
  destruct e as [| | d | r | | z | t | id |].
  - destruct o, cfg as [[[cam|] model sim]|], cn; cw_unfold; same_render;
      reflexivity.
  - destruct o, cfg as [[[cam|] model sim]|], cn; cw_unfold; same_render;
      reflexivity.
  - destruct d as [[|] cid err], it, ic, ir, pt as [[|a t]|], o;
      cw_unfold; same_render; reflexivity.
  - destruct r as [[|]|], o, cfg, cn; cw_unfold; same_render; reflexivity.
  - unfold step, react, handler, run, handleConfigClose.
    cbn [selectedCameraId previousCameraId].
    destruct (sl =? pv), o; cw_unfold; same_render; reflexivity.
  - destruct o; cw_unfold; same_render; reflexivity.
  - unfold step, react, handler, run, handleTabChange.
    cbn [activeTab selectedCameraId previousCameraId].
    destruct (tb =? "model")%string, (t =? "model")%string, (sl =? pv), o;
      cw_unfold; same_render; reflexivity.
  - cw_head.
    destruct (find_timer id tm) as [[| |t]|], o; cw_unfold; same_render;
      reflexivity.
  - destruct it, o; cw_unfold; same_render; reflexivity.
Qed.

Lemma socket_stays_steps (l : list Event) (s : State) :
  socket s = true -> socket (steps s l) = true.
Proof.
  revert s. induction l as [|e l IH]; intros s Hs; [exact Hs |].
  apply IH, socket_stays, Hs.
Qed.

(** Were the view open before the socket exists, the creation of the socket
    would change [loadModelsAndCameras], the effect would run again and
    release the camera then. *)
Lemma socket_creation_releases_camera (s : State) :
  socket s = false ->
  open s = true ->
  hardware_commands (added s (step s SocketCreated))
  = [kill_camera_for_config] /\
  previousCameraId (step s SocketCreated) = committedCameraId s.
Proof.
  destruct s as [o cfg v sk cn pc hc lc ii ir ic pt it pv sl tb tm nt ef].
  cbn [socket open]. intros -> ->.
  destruct cfg as [[[cam|] model sim]|], cn; cw_unfold; added_list;
    repeat split.
Qed.

(** C9: once the component is mounted (the socket hook has created its
    socket, which it never sets back to null), every opening of the view,
    after whatever events and with or without a loaded configuration, emits
    [kill_camera_for_config], once, and records the committed camera (camera
    0 when no configuration is loaded) as [previousCameraId] and as the
    selection. *)
Theorem opening_releases_camera
  (conn : bool) (cfg : option AppConfig) (l : list Event) :
  let s := steps (mounted conn cfg) l in
  open s = false ->
  let s' := step s OpenConfiguration in
  open s' = true /\
  previousCameraId s' = committedCameraId s /\
  selectedCameraId s' = committedCameraId s /\
  hardware_commands (added s s') = [kill_camera_for_config].
Proof.
  cbv zeta. intros Ho.
  assert (Hs : socket (steps (mounted conn cfg) l) = true).
  { apply socket_stays_steps. unfold mounted. now destruct cfg, conn. }
  destruct (opening_effect _ Ho) as (H1 & H2 & H3 & H4).
  rewrite Hs in H4. auto.
Qed.

Lemma opening_releases_camera_witness :
  open (steps (mounted false None) [OpenConfiguration; ConfigClose]) = false /\
  config (steps (mounted false None) [OpenConfiguration; ConfigClose]) = None /\
  hardware_commands
    (added (steps (mounted false None) [OpenConfiguration; ConfigClose])
       (step (steps (mounted false None) [OpenConfiguration; ConfigClose])
          OpenConfiguration))
  = [kill_camera_for_config].
Proof.
  do 2 (split; [reflexivity |]).
  apply (opening_releases_camera false None [OpenConfiguration; ConfigClose]
           eq_refl).
Defined.

(** *** The staged selection *)

(** Every event but a new selection keeps [selectedCameraId] equal to
    [previousCameraId] once they are equal. *)
Lemma selection_converged_step (s : State) (e : Event) :
  is_selection e = false ->
  selectedCameraId s = previousCameraId s ->
  selectedCameraId (step s e) = previousCameraId (step s e).
Proof.
  intros He Heq.
  destruct e; try discriminate; unfold step, react, handler, run.
  - destruct s as [o cfg v sk cn pc hc lc ii ir ic pt it pv sl tb tm nt ef].
    cbn in Heq. subst sl.
    destruct o, cfg as [[[cam|] model sim]|], sk, cn; cw_unfold;
      same_render; reflexivity.
  - destruct s as [o cfg v sk cn pc hc lc ii ir ic pt it pv sl tb tm nt ef].
    cbn in Heq. subst sl.
    destruct o, cfg as [[[cam|] model sim]|], sk, cn; cw_unfold;
      same_render; reflexivity.
  - destruct s as [o cfg v sk cn pc hc lc ii ir ic pt it pv sl tb tm nt ef].
    cbn in Heq. subst sl.
    destruct data as [[|] cid err], it, ic, ir, pt as [[|a t]|], o;
      cw_unfold; same_render; reflexivity.
  - destruct s as [o cfg v sk cn pc hc lc ii ir ic pt it pv sl tb tm nt ef].
    cbn in Heq. subst sl.
    destruct r as [[|]|], sk, o, cfg, cn; cw_unfold; same_render;
      reflexivity.
  - rewrite (handleConfigClose_converged s Heq).
    destruct s as [o cfg v sk cn pc hc lc ii ir ic pt it pv sl tb tm nt ef].
    cbn in Heq. subst sl.
    destruct o; cw_unfold; same_render; reflexivity.
  - rewrite (handleTabChange_converged newTab s Heq).
    destruct s as [o cfg v sk cn pc hc lc ii ir ic pt it pv sl tb tm nt ef].
    cbn in Heq. subst sl.
    destruct o; cw_unfold; same_render; reflexivity.
  - destruct s as [o cfg v sk cn pc hc lc ii ir ic pt it pv sl tb tm nt ef].
    cbn in Heq. subst sl. cw_head.
    destruct (find_timer id tm) as [[| |t]|], o; cw_unfold; same_render;
      reflexivity.
  - destruct s as [o cfg v sk cn pc hc lc ii ir ic pt it pv sl tb tm nt ef].
    cbn in Heq. subst sl.
    destruct it, o; cw_unfold; same_render; reflexivity.
Qed.

Lemma selection_converged_steps (l : list Event) (s : State) :
  Forall (fun e => is_selection e = false) l ->
  selectedCameraId s = previousCameraId s ->
  selectedCameraId (steps s l) = previousCameraId (steps s l).
Proof.
  intros Hl. revert s.
  induction Hl as [|e l He _ IH]; intros s Hs; [exact Hs |].
  apply IH, selection_converged_step; assumption.
Qed.

(** Leaving the model tab with a staged selection starts the restoration. *)
Lemma handleTabChange_diverged (newTab : string) (c : State) :
  activeTab c = "model" ->
  newTab <> "model" ->
  selectedCameraId c <> previousCameraId c ->
  handleTabChange newTab c =
  (setIsRestoringCamera true ;;
   setPendingTabChange (Some newTab) ;;
   setSelectedCameraId (previousCameraId c) ;;
   when (socket c)
     (emit (initialize_camera (previousCameraId c)) ;;
      setTimeout (TabRestoreTimeout newTab) 30000
        (fun timeoutId => setInitializationTimeout (Some timeoutId)))).
Proof.
  intros Htab Hnew Hd. unfold handleTabChange.
  apply String.eqb_neq in Hnew. apply Z.eqb_neq in Hd.
  now rewrite Htab, Hnew, Hd.
Qed.

(** C10: a tab change away from the model tab leaves [selectedCameraId]
    equal to [previousCameraId] as soon as the handler returns.  With a
    diverged selection that is while the restoration is still pending (the
    tab has not changed yet); the staged selection is gone.  The equality
    then holds after every further sequence of events in which the user
    picks no new camera, in particular when the [camera_initialized] event
    or the 30 second timer completes the tab change. *)
Theorem tab_change_discards_staged_selection
  (s : State) (newTab : string) (l : list Event) :
  activeTab s = "model" ->
  newTab <> "model" ->
  Forall (fun e => is_selection e = false) l ->
  let s1 := step s (TabChange newTab) in
  selectedCameraId s1 = previousCameraId s /\
  previousCameraId s1 = previousCameraId s /\
  (selectedCameraId s <> previousCameraId s ->
   activeTab s1 = "model" /\
   isRestoringCamera s1 = true /\
   pendingTabChange s1 = Some newTab) /\
  selectedCameraId (steps s1 l) = previousCameraId (steps s1 l).
Proof.
  intros Htab Hnew Hl s1.
  assert (H1 : selectedCameraId s1 = previousCameraId s /\
               previousCameraId s1 = previousCameraId s /\
               (selectedCameraId s <> previousCameraId s ->
                activeTab s1 = "model" /\
                isRestoringCamera s1 = true /\
                pendingTabChange s1 = Some newTab)).
  { subst s1. unfold step, react, handler, run.
    destruct (Z.eq_dec (selectedCameraId s) (previousCameraId s)) as [Hc|Hd].
    - rewrite (handleTabChange_converged newTab s Hc).
      destruct s as [o cfg v sk cn pc hc lc ii ir ic pt it pv sl tb tm nt ef].
      cbn in Hc. subst sl.
      destruct o; cw_unfold; same_render; repeat split; congruence.
    - rewrite (handleTabChange_diverged newTab s Htab Hnew Hd).
      destruct s as [o cfg v sk cn pc hc lc ii ir ic pt it pv sl tb tm nt ef].
      cbn in Htab. subst tb.
      destruct o, sk; cw_unfold; same_render; repeat split. }
  destruct H1 as (Hsel & Hprev & Hpending).
  repeat split; try assumption; try (apply Hpending; assumption).
  apply selection_converged_steps; [assumption | congruence].
Qed.

Lemma tab_change_discards_staged_selection_witness :
  activeTab picked_camera_2 = "model" /\
  selectedCameraId picked_camera_2 = 2 /\
  previousCameraId picked_camera_2 = 0 /\
  selectedCameraId (step picked_camera_2 (TabChange "visual")) = 0 /\
  activeTab
    (steps (step picked_camera_2 (TabChange "visual"))
       [CameraInitializedEvent camera_1_ready]) = "visual".
Proof.
  do 3 (split; [reflexivity |]).
  split; [| reflexivity].
  apply (tab_change_discards_staged_selection picked_camera_2 "visual"
           [CameraInitializedEvent camera_1_ready] eq_refl).
  - discriminate.
  - repeat constructor.
Defined.

(** * Further properties of the camera coordinator *)

Lemma skipn_length_plus {A : Type} (l l' : list A) (n : nat) :
  skipn (length l + n) (l ++ l') = skipn n l'.
Proof. induction l; cbn; auto. Qed.

(** Brings what the second of two steps appended into the form of a list. *)
Ltac added_list2 :=
  same_render; rewrite <- ?app_assoc; cbn [app];
  rewrite ?skipn_length_app;
  rewrite ?length_app, ?skipn_length_plus; cbn [length skipn].

(** *** Restoration on close *)

(** Closing with a staged selection starts the restoration. *)
Lemma handleConfigClose_diverged (c : State) :
  selectedCameraId c <> previousCameraId c ->
  handleConfigClose c =
  (setIsRestoringCamera true ;;
   when (socket c)
     (emit (initialize_camera (previousCameraId c)) ;;
      setTimeout CloseRestoreTimeout 30000
        (fun timeoutId => setInitializationTimeout (Some timeoutId)))).
Proof.
  intros Hd. unfold handleConfigClose.
  apply Z.eqb_neq in Hd. now rewrite Hd.
Qed.

(** The state in which a close with a staged selection leaves the view. *)
Lemma step_ConfigClose_diverged (s : State) :
  selectedCameraId s <> previousCameraId s ->
  step s ConfigClose =
  (setIsRestoringCamera true ;;
   when (socket s)
     (emit (initialize_camera (previousCameraId s)) ;;
      setTimeout CloseRestoreTimeout 30000
        (fun timeoutId => setInitializationTimeout (Some timeoutId)))) s.
Proof.
  intros Hd. unfold step, react, handler, run.
  rewrite (handleConfigClose_diverged s Hd).
  destruct s as [o cfg v sk cn pc hc lc ii ir ic pt it pv sl tb tm nt ef].
  destruct o, sk; cw_unfold; same_render; reflexivity.
Qed.

(** X1: closing the view with a staged selection, while nothing else is
    pending and the socket exists, emits exactly one [initialize_camera] for
    the previous camera, arms one 30 second timer and keeps the view open
    behind the overlay; the [camera_initialized] event that answers, be it a
    success or a failure, then closes the view, clears the timer and emits
    nothing, and the previous camera is still the rollback target. *)
Theorem close_restores_previous_camera
  (s : State) (d : CameraInitialized) :
  resolved s ->
  socket s = true ->
  selectedCameraId s <> previousCameraId s ->
  let s1 := step s ConfigClose in
  let s2 := step s1 (CameraInitializedEvent d) in
  open s1 = open s /\
  isRestoringCamera s1 = true /\
  added s s1 = [Emit (initialize_camera (previousCameraId s));
                SetTimeout (nextTimer s) 30000] /\
  open s2 = false /\
  resolved s2 /\
  commands (added s1 s2) = [] /\
  find_timer (nextTimer s) (timers s2) = None /\
  previousCameraId s2 = previousCameraId s.
Proof.
  intros R Hs Hd. cbv zeta.
  rewrite (step_ConfigClose_diverged s Hd).
  destruct s as [o cfg v sk cn pc hc lc ii ir ic pt it pv sl tb tm nt ef].
  destruct R as (Hi & Hr & Hc & Hp & Ht).
  cbn in Hi, Hr, Hc, Hp, Ht, Hs. subst.
  destruct d as [[|] cid err], o; cw_unfold; added_list2;
    rewrite ?find_timer_removed; repeat split.
Qed.

Lemma close_restores_previous_camera_witness :
  resolved picked_camera_2 /\
  selectedCameraId picked_camera_2 <> previousCameraId picked_camera_2 /\
  commands
    (effects (steps picked_camera_2
                [ConfigClose; CameraInitializedEvent camera_1_ready]))
  = (commands (effects picked_camera_2) ++ [initialize_camera 0])%list /\
  open (steps picked_camera_2
          [ConfigClose; CameraInitializedEvent camera_1_ready]) = false.
Proof.
  assert (R : resolved picked_camera_2) by (vm_compute; repeat split).
  assert (D : selectedCameraId picked_camera_2
              <> previousCameraId picked_camera_2) by discriminate.
  split; [exact R | split; [exact D | split; [reflexivity |]]].
  apply (close_restores_previous_camera picked_camera_2 camera_1_ready
           R eq_refl D).
Defined.

(** X2: when no [camera_initialized] event answers the restoration that a
    close started, the firing of its timer forces the close: the view is
    closed, the overlay flag and the timer cell are cleared and the
    notification of the timeout is shown. *)
Theorem close_timeout_forces_close (s : State) :
  socket s = true ->
  selectedCameraId s <> previousCameraId s ->
  find_timer (nextTimer s) (timers s) = None ->
  let s1 := step s ConfigClose in
  let s2 := step s1 (TimerFires (nextTimer s)) in
  initializationTimeout s1 = Some (nextTimer s) /\
  open s2 = false /\
  isRestoringCamera s2 = false /\
  initializationTimeout s2 = None /\
  added s1 s2
  = [HandleClose;
     ShowNotification "Timeout mengembalikan kamera - modal ditutup anyway"].
Proof.
  intros Hs Hd Hfresh. cbv zeta.
  rewrite (step_ConfigClose_diverged s Hd).
  destruct s as [o cfg v sk cn pc hc lc ii ir ic pt it pv sl tb tm nt ef].
  cbn [socket timers nextTimer] in Hs, Hfresh. subst sk.
  match goal with
  | |- context [step ?x (TimerFires _)] => remember x as s1 eqn:E1
  end.
  cw_unfold in E1. subst s1. cw_head.
  rewrite (find_timer_fresh _ _ _ Hfresh).
  destruct o; cw_unfold; added_list2; repeat split.
Qed.

Lemma close_timeout_forces_close_witness :
  socket picked_camera_2 = true /\
  open picked_camera_2 = true /\
  open (steps picked_camera_2
          [ConfigClose; TimerFires (nextTimer picked_camera_2)]) = false.
Proof.
  split; [reflexivity | split; [reflexivity |]].
  assert (D : selectedCameraId picked_camera_2
              <> previousCameraId picked_camera_2) by discriminate.
  apply (close_timeout_forces_close picked_camera_2 eq_refl D eq_refl).
Defined.

(** *** Restoration on tab change *)

(** The state in which leaving the model tab with a staged selection leaves
    the view. *)
Lemma step_TabChange_diverged (s : State) (newTab : string) :
  activeTab s = "model" ->
  newTab <> "model" ->
  selectedCameraId s <> previousCameraId s ->
  step s (TabChange newTab) =
  (setIsRestoringCamera true ;;
   setPendingTabChange (Some newTab) ;;
   setSelectedCameraId (previousCameraId s) ;;
   when (socket s)
     (emit (initialize_camera (previousCameraId s)) ;;
      setTimeout (TabRestoreTimeout newTab) 30000
        (fun timeoutId => setInitializationTimeout (Some timeoutId)))) s.
Proof.
  intros Htab Hnew Hd. unfold step, react, handler, run.
  rewrite (handleTabChange_diverged newTab s Htab Hnew Hd).
  destruct s as [o cfg v sk cn pc hc lc ii ir ic pt it pv sl tb tm nt ef].
  destruct o, sk; cw_unfold; same_render; reflexivity.
Qed.

(** X3: leaving the model tab with a staged selection, while no save is in
    flight and the socket exists, defers the tab change and emits exactly
    one [initialize_camera] for the previous camera; the [camera_initialized]
    event that answers, success or failure, then switches to the requested
    tab, leaves the view open, clears the timer and leaves nothing
    pending. *)
Theorem tab_change_completes_on_event
  (s : State) (newTab : string) (d : CameraInitialized) :
  isClosingModal s = false ->
  socket s = true ->
  activeTab s = "model" ->
  newTab <> "model" ->
  newTab <> "" ->
  selectedCameraId s <> previousCameraId s ->
  let s1 := step s (TabChange newTab) in
  let s2 := step s1 (CameraInitializedEvent d) in
  activeTab s1 = "model" /\
  commands (added s s1) = [initialize_camera (previousCameraId s)] /\
  activeTab s2 = newTab /\
  open s2 = open s /\
  resolved s2 /\
  commands (added s1 s2) = [] /\
  find_timer (nextTimer s) (timers s2) = None.
Proof.
  intros Hc Hs Htab Hnew Hne Hd. cbv zeta.
  rewrite (step_TabChange_diverged s newTab Htab Hnew Hd).
  destruct s as [o cfg v sk cn pc hc lc ii ir ic pt it pv sl tb tm nt ef].
  cbn in Hc, Hs, Htab. subst.
  destruct newTab as [|a t]; [congruence |].
  destruct d as [[|] cid err], o; cw_unfold; added_list2;
    rewrite ?find_timer_removed; repeat split.
Qed.

Lemma tab_change_completes_on_event_witness :
  isClosingModal picked_camera_2 = false /\
  activeTab picked_camera_2 = "model" /\
  activeTab (steps picked_camera_2
               [TabChange "visual"; CameraInitializedEvent camera_1_ready])
  = "visual".
Proof.
  split; [reflexivity | split; [reflexivity |]].
  assert (D : selectedCameraId picked_camera_2
              <> previousCameraId picked_camera_2) by discriminate.
  apply (tab_change_completes_on_event picked_camera_2 "visual"
           camera_1_ready eq_refl eq_refl eq_refl);
    [discriminate | discriminate | exact D].
Defined.

(** X4: when no [camera_initialized] event answers the restoration that a
    tab change started, the firing of its timer forces the tab change: the
    requested tab becomes active, the view stays open, the overlay flag, the
    pending tab and the timer cell are cleared and the notification of the
    timeout is shown. *)
Theorem tab_timeout_forces_tab_change (s : State) (newTab : string) :
  socket s = true ->
  activeTab s = "model" ->
  newTab <> "model" ->
  selectedCameraId s <> previousCameraId s ->
  find_timer (nextTimer s) (timers s) = None ->
  let s1 := step s (TabChange newTab) in
  let s2 := step s1 (TimerFires (nextTimer s)) in
  activeTab s2 = newTab /\
  open s2 = open s /\
  isRestoringCamera s2 = false /\
  pendingTabChange s2 = None /\
  initializationTimeout s2 = None /\
  added s1 s2
  = [ShowNotification "Timeout mengembalikan kamera - tab berubah anyway"].
Proof.
  intros Hs Htab Hnew Hd Hfresh. cbv zeta.
  rewrite (step_TabChange_diverged s newTab Htab Hnew Hd).
  destruct s as [o cfg v sk cn pc hc lc ii ir ic pt it pv sl tb tm nt ef].
  cbn [socket timers nextTimer] in Hs, Hfresh. subst sk.
  match goal with
  | |- context [step ?x (TimerFires _)] => remember x as s1 eqn:E1
  end.
  cw_unfold in E1. subst s1. cw_head.
  rewrite (find_timer_fresh _ _ _ Hfresh).
  destruct o; cw_unfold; added_list2; repeat split.
Qed.

Lemma tab_timeout_forces_tab_change_witness :
  activeTab picked_camera_2 = "model" /\
  activeTab (steps picked_camera_2
               [TabChange "advanced";
                TimerFires (nextTimer picked_camera_2)]) = "advanced".
Proof.
  split; [reflexivity |].
  assert (D : selectedCameraId picked_camera_2
              <> previousCameraId picked_camera_2) by discriminate.
  apply (tab_timeout_forces_tab_change picked_camera_2 "advanced"
           eq_refl eq_refl);
    [discriminate | exact D | reflexivity].
Defined.

(** *** The event and the timer *)

(** X5: the [camera_initialized] handler clears the timer whose identifier
    it finds in [initializationTimeout]; when the browser's turn for that
    timer comes afterwards, nothing happens: the timer callback never runs
    after the event was handled. *)
Theorem camera_initialized_cancels_timer
  (s : State) (d : CameraInitialized) (id : nat) :
  initializationTimeout s = Some id ->
  let s1 := step s (CameraInitializedEvent d) in
  find_timer id (timers s1) = None /\
  step s1 (TimerFires id) = s1.
Proof.
  destruct s as [o cfg v sk cn pc hc lc ii ir ic pt it pv sl tb tm nt ef].
  cbn [initializationTimeout]. intros ->. cbv zeta.
  remember (step _ (CameraInitializedEvent d)) as s1 eqn:E1.
  destruct d as [[|] cid err], ic, ir, pt as [[|a t]|], o, sk;
    cw_unfold in E1; rewrite ?Nat.eqb_refl in E1; cbv beta iota in E1;
    subst s1; cw_head; rewrite !find_timer_removed;
    (split; [reflexivity |]);
    unfold react, render; cbn [open configVersion socket];
    now rewrite Nat.eqb_refl.
Qed.

Lemma camera_initialized_cancels_timer_witness :
  initializationTimeout saved_camera_1 = Some 1%nat /\
  find_timer 1 (timers saved_camera_1) = Some SaveTimeout /\
  steps saved_camera_1
    [CameraInitializedEvent camera_1_ready; TimerFires 1%nat]
  = step saved_camera_1 (CameraInitializedEvent camera_1_ready).
Proof.
  split; [reflexivity | split; [reflexivity |]].
  apply (camera_initialized_cancels_timer saved_camera_1 camera_1_ready
           1%nat eq_refl).
Defined.

(** *** Saving, continued *)

(** X6: a save whose store write succeeded while the socket object does not
    exist emits nothing on the socket and arms no timer; the new
    configuration is installed in the context, the two loading flags are
    cleared at once and the user is told, after the notification of the
    successful save, that the socket is not available. *)
Theorem save_without_socket (s : State) :
  socket s = false ->
  let s' := step s (SaveSettings (Fulfilled true)) in
  commands (added s s') = [] /\
  timers s' = timers s /\
  initializationTimeout s' = initializationTimeout s /\
  config s' = Some (configWithSelectedCamera s) /\
  isClosingModal s' = false /\
  isInitializingCamera s' = false /\
  notifications (added s s')
  = ["Pengaturan berhasil disimpan"; "Koneksi socket tidak tersedia"].
Proof.
  destruct s as [o cfg v sk cn pc hc lc ii ir ic pt it pv sl tb tm nt ef].
  cbn [socket]. intros ->. cbv zeta.
  destruct o, cfg, cn; cw_unfold; added_list; repeat split.
Qed.

Lemma save_without_socket_witness :
  socket no_socket = false /\
  effects (step no_socket (SaveSettings (Fulfilled true)))
  = [SaveConfig DEFAULT_CONFIG;
     ShowNotification "Pengaturan berhasil disimpan";
     ShowNotification "Koneksi socket tidak tersedia"] /\
  timers (step no_socket (SaveSettings (Fulfilled true))) = [].
Proof.
  split; [reflexivity | split; [reflexivity |]].
  apply (save_without_socket no_socket eq_refl).
Defined.

(** X7: a save from the open view whose store write succeeded is completed
    by the [camera_initialized] event, whether it reports success or
    failure: the view is closed, the timer of the save is cleared and
    nothing stays pending.  On success the camera is switched off in the
    scanning view ([setCameraEnabled(false)]).  By then the saved camera is
    both the selection and the rollback target. *)
Theorem acknowledged_save_closes (s : State) (d : CameraInitialized) :
  socket s = true ->
  open s = true ->
  let s1 := step s (SaveSettings (Fulfilled true)) in
  let s2 := step s1 (CameraInitializedEvent d) in
  open s2 = false /\
  resolved s2 /\
  find_timer (nextTimer s) (timers s2) = None /\
  (success d = true -> In (SetCameraEnabled false) (added s1 s2)) /\
  (success d = false -> ~ In (SetCameraEnabled false) (added s1 s2)) /\
  In HandleClose (added s1 s2) /\
  previousCameraId s2 = selectedCameraId s /\
  selectedCameraId s2 = selectedCameraId s.
Proof.
  destruct s as [o cfg v sk cn pc hc lc ii ir ic pt it pv sl tb tm nt ef].
  cbn [socket open]. intros -> ->. cbv zeta.
  assert (Hv : (v =? S v)%nat = false) by (apply Nat.eqb_neq; lia).
  match goal with
  | |- context [step ?s0 (SaveSettings ?r)] =>
      remember (step s0 (SaveSettings r)) as s1 eqn:E1
  end.
  destruct cfg, cn; cw_unfold in E1; rewrite Hv in E1;
    cbv beta iota in E1; subst s1;
    destruct d as [[|] cid err]; cw_unfold; added_list2;
    rewrite ?find_timer_removed; cbn [In];
    repeat split; auto; try discriminate;
    intros _ H;
    repeat match goal with
           | H : _ \/ _ |- _ => destruct H
           | H : False |- _ => destruct H
           | H : _ = SetCameraEnabled _ |- _ => discriminate H
           end.
Qed.

Lemma acknowledged_save_closes_witness :
  socket picked_camera_2 = true /\
  open picked_camera_2 = true /\
  selectedCameraId picked_camera_2 = 2 /\
  open (steps picked_camera_2
          [SaveSettings (Fulfilled true);
           CameraInitializedEvent camera_1_ready]) = false /\
  previousCameraId (steps picked_camera_2
                      [SaveSettings (Fulfilled true);
                       CameraInitializedEvent camera_1_ready]) = 2.
Proof.
  do 3 (split; [reflexivity |]).
  pose proof (acknowledged_save_closes picked_camera_2 camera_1_ready
                eq_refl eq_refl) as H.
  cbv zeta in H. destruct H as (H1 & _ & _ & _ & _ & _ & H7 & _).
  split; [exact H1 | exact H7].
Defined.

(** *** Without a socket *)

(** X8: while the socket object does not exist, closing the view or leaving
    the model tab with a staged selection only raises the overlay flag: no
    command is emitted, no timer is armed, the view stays open and the tab
    stays where it is, so that nothing is left that could complete the
    close or the tab change. *)
Theorem restoration_without_socket_arms_nothing
  (s : State) (newTab : string) :
  socket s = false ->
  selectedCameraId s <> previousCameraId s ->
  activeTab s = "model" ->
  newTab <> "model" ->
  (isRestoringCamera (step s ConfigClose) = true /\
   open (step s ConfigClose) = open s /\
   effects (step s ConfigClose) = effects s /\
   timers (step s ConfigClose) = timers s) /\
  (isRestoringCamera (step s (TabChange newTab)) = true /\
   activeTab (step s (TabChange newTab)) = "model" /\
   effects (step s (TabChange newTab)) = effects s /\
   timers (step s (TabChange newTab)) = timers s).
Proof.
  intros Hs Hd Htab Hnew.
  rewrite (step_ConfigClose_diverged s Hd).
  rewrite (step_TabChange_diverged s newTab Htab Hnew Hd).
  destruct s as [o cfg v sk cn pc hc lc ii ir ic pt it pv sl tb tm nt ef].
  cbn in Hs, Htab. subst. cw_unfold. repeat split.
Qed.

Lemma restoration_without_socket_arms_nothing_witness :
  socket (handleCameraSelection 2 (setActiveTab "model" no_socket)) = false /\
  isRestoringCamera
    (step (handleCameraSelection 2 (setActiveTab "model" no_socket))
       ConfigClose) = true /\
  timers
    (step (handleCameraSelection 2 (setActiveTab "model" no_socket))
       ConfigClose) = [].
Proof.
  split; [reflexivity |].
  assert (D : selectedCameraId
                (handleCameraSelection 2 (setActiveTab "model" no_socket))
              <> previousCameraId
                   (handleCameraSelection 2 (setActiveTab "model" no_socket)))
    by discriminate.
  assert (N : "visual" <> "model") by discriminate.
  destruct (restoration_without_socket_arms_nothing
              (handleCameraSelection 2 (setActiveTab "model" no_socket))
              "visual" eq_refl D eq_refl N) as ((H1 & _ & _ & H4) & _).
  split; [exact H1 | exact H4].
Defined.

(** *** The name of a model *)

Lemma split_slash_not_nil (path : string) : split_slash path <> [].
Proof.
  destruct path as [|c rest]; cbn [split_slash]; [congruence |].
  destruct (Ascii.eqb c slash); [congruence |].
  destruct (split_slash rest); congruence.
Qed.

(** Joining the segments of a path with slashes gives the path back. *)
Lemma join_split_slash (path : string) :
  join_slash (split_slash path) = path.
Proof.
  induction path as [|c rest IH]; [reflexivity |].
  cbn [split_slash].
  pose proof (split_slash_not_nil rest) as Hn.
  destruct (Ascii.eqb_spec c slash) as [-> | Hc];
    destruct (split_slash rest) as [|seg segs]; try congruence.
  - change (join_slash ("" :: seg :: segs))
      with ("" ++ String slash (join_slash (seg :: segs))).
    now rewrite IH.
  - destruct segs as [|seg' segs].
    + cbn in IH |- *. now rewrite IH.
    + change (join_slash (String c seg :: seg' :: segs))
        with (String c (join_slash (seg :: seg' :: segs))).
      now rewrite IH.
Qed.

Lemma split_slash_segments (path : string) :
  Forall (fun segment => no_slash segment = true) (split_slash path).
Proof.
  induction path as [|c rest IH]; [repeat constructor |].
  cbn [split_slash].
  destruct (Ascii.eqb c slash) eqn:Hc.
  - constructor; [reflexivity | exact IH].
  - destruct (split_slash rest) as [|seg segs].
    + constructor; [| constructor]. cbn [no_slash]. now rewrite Hc.
    + inversion IH; subst. constructor; [| assumption].
      cbn [no_slash]. rewrite Hc. assumption.
Qed.

Lemma string_append_assoc (a b c : string) :
  ((a ++ b) ++ c)%string = (a ++ (b ++ c))%string.
Proof.
  induction a as [|x a IH]; [reflexivity |].
  change (String x ((a ++ b) ++ c) = String x (a ++ (b ++ c))).
  now rewrite IH.
Qed.

Lemma pop_suffix (segments : list string) :
  exists prefix, join_slash segments = prefix ++ pop segments.
Proof.
  unfold pop.
  induction segments as [|seg rest IH]; [now exists "" |].
  destruct rest as [|seg' rest]; [now exists "" |].
  destruct IH as (prefix & IH).
  exists (seg ++ String slash prefix).
  change (join_slash (seg :: seg' :: rest))
    with (seg ++ String slash (join_slash (seg' :: rest))).
  change (last (seg :: seg' :: rest) "") with (last (seg' :: rest) "").
  rewrite IH.
  rewrite string_append_assoc. reflexivity.
Qed.

Lemma pop_no_slash (path : string) :
  no_slash (pop (split_slash path)) = true.
Proof.
  pose proof (split_slash_segments path) as H.
  pose proof (split_slash_not_nil path) as Hn.
  unfold pop.
  induction (split_slash path) as [|seg rest IH]; [congruence |].
  inversion H; subst.
  destruct rest as [|seg' rest]; [assumption |].
  apply IH; [assumption | discriminate].
Qed.

Lemma pop_empty (path : string) :
  pop (split_slash path) = "" ->
  path = "" \/ ends_with_slash path = true.
Proof.
  induction path as [|c rest IH]; [now left |].
  intros Hp. right. cbn [split_slash] in Hp.
  pose proof (split_slash_not_nil rest) as Hn.
  destruct (Ascii.eqb c slash) eqn:Hc.
  - destruct (split_slash rest) as [|seg segs] eqn:Hs; [congruence |].
    change (pop ("" :: seg :: segs)) with (pop (seg :: segs)) in Hp.
    destruct (IH Hp) as [-> | He]; [cbn [ends_with_slash]; exact Hc |].
    destruct rest; [discriminate | exact He].
  - destruct (split_slash rest) as [|seg segs] eqn:Hs; [congruence |].
    destruct segs as [|seg' segs]; [discriminate |].
    change (pop (String c seg :: seg' :: segs)) with (pop (seg :: seg' :: segs))
      in Hp.
    destruct (IH Hp) as [-> | He]; [discriminate |].
    destruct rest; [discriminate | exact He].
Qed.

Lemma split_slash_plain (path : string) :
  no_slash path = true -> split_slash path = [path].
Proof.
  induction path as [|c rest IH]; [reflexivity |].
  cbn [no_slash split_slash].
  destruct (Ascii.eqb c slash); [discriminate |].
  cbn [negb andb]. intros H. now rewrite (IH H).
Qed.

(** X10: the model name shown after a model change,
    [model_path.split('/').pop() || model_path], is always a suffix of the
    path.  It is the part after the last slash, free of slashes, unless the
    path ends with a slash: then that part is empty and the whole path is
    shown.  A path without slashes is shown as it is, and a non-empty path
    never gives an empty name. *)
Theorem modelName_is_last_segment (model_path : string) :
  (exists prefix, model_path = prefix ++ modelName model_path) /\
  (ends_with_slash model_path = false ->
   no_slash (modelName model_path) = true) /\
  (ends_with_slash model_path = true ->
   modelName model_path = model_path) /\
  (no_slash model_path = true -> modelName model_path = model_path) /\
  (model_path <> "" -> modelName model_path <> "").
Proof.
  unfold modelName.
  destruct (pop (split_slash model_path)) as [|c name] eqn:Hp;
    cbn [truthy_string].
  - repeat split; try reflexivity; try (intros; assumption).
    + now exists "".
    + intros He. destruct (pop_empty _ Hp) as [-> | He']; [reflexivity |].
      congruence.
  - repeat split.
    + destruct (pop_suffix (split_slash model_path)) as (prefix & H).
      rewrite join_split_slash, Hp in H. now exists prefix.
    + intros _. rewrite <- Hp. apply pop_no_slash.
    + intros He. exfalso.
      destruct (pop_suffix (split_slash model_path)) as (prefix & H).
      rewrite join_split_slash, Hp in H.
      pose proof (pop_no_slash model_path) as Hn. rewrite Hp in Hn.
      clear Hp. subst model_path.
      revert He.
      induction prefix as [|a prefix IH]; unfold append; fold append.
      * revert c Hn. induction name as [|b name IHn]; intros c Hn.
        -- cbn [no_slash ends_with_slash] in Hn |- *.
           destruct (Ascii.eqb c slash); cbn [negb andb] in Hn; congruence.
        -- intros He. apply (IHn b).
           ++ cbn [no_slash] in Hn.
              destruct (Ascii.eqb c slash); [discriminate Hn |]. exact Hn.
           ++ exact He.
      * cbn [ends_with_slash].
        destruct (prefix ++ String c name) eqn:E.
        -- destruct prefix; discriminate.
        -- exact IH.
    + intros Hn. rewrite (split_slash_plain _ Hn) in Hp.
      cbn in Hp. congruence.
    + discriminate.
Qed.

Lemma modelName_is_last_segment_witness :
  ends_with_slash "models/yolov5s.pt" = false /\
  modelName "models/yolov5s.pt" = "yolov5s.pt" /\
  modelName "models/" = "models/" /\
  no_slash (modelName "models/yolov5s.pt") = true.
Proof.
  split; [reflexivity | split; [reflexivity | split; [reflexivity |]]].
  apply (modelName_is_last_segment "models/yolov5s.pt"). reflexivity.
Defined.

(** *** A staged model *)

(** X11: a successful [model_changed] event (its handler is registered
    only while the socket exists) stages the new model in the pending
    configuration and marks it changed, without touching the staged camera
    or the selection; a save then writes that model
    together with the selected camera, and "reset changes" instead puts the
    loaded configuration back and clears the mark. *)
Theorem staged_model_is_saved_or_reset
  (s : State) (d : ModelChanged) (model_path : string) (r : Awaited) :
  socket s = true ->
  mc_success d = true ->
  mc_model_path d = Some model_path ->
  model_path <> "" ->
  let s1 := react (run (handleModelChanged d)) s in
  advanced_model (pendingConfig s1) = model_path /\
  advanced_cameraId (pendingConfig s1) = advanced_cameraId (pendingConfig s) /\
  hasChanges s1 = true /\
  selectedCameraId s1 = selectedCameraId s /\
  added s s1
  = [ShowNotification
       ("Model berhasil diubah ke: " ++ modelName model_path)] /\
  In (SaveConfig
        {| advanced_cameraId := Some (selectedCameraId s);
           advanced_model := model_path;
           simulation_enabled := simulation_enabled (pendingConfig s) |})
     (added s1 (step s1 (SaveSettings r))) /\
  (forall cfg, config s = Some cfg ->
     pendingConfig (react (run handleResetChanges) s1) = cfg /\
     hasChanges (react (run handleResetChanges) s1) = false).
Proof.
  intros _ Hok Hpath Hne. cbv zeta.
  assert (Hs1 : react (run (handleModelChanged d)) s =
                (showNotification
                   ("Model berhasil diubah ke: " ++ modelName model_path) ;;
                 setPendingConfig
                   {| advanced_cameraId := advanced_cameraId (pendingConfig s);
                      advanced_model := model_path;
                      simulation_enabled :=
                        simulation_enabled (pendingConfig s) |} ;;
                 setHasChanges true) s).
  { unfold react, run, handleModelChanged. rewrite Hok, Hpath.
    destruct model_path as [|a t]; [congruence |]. cbn [truthy_string andb].
    destruct s as [o cfg v sk cn pc hc lc ii ir ic pt it pv sl tb tm nt ef].
    destruct o; cw_unfold; same_render; reflexivity. }
  rewrite Hs1. clear Hs1 Hok Hpath Hne.
  destruct s as [o cfg v sk cn pc hc lc ii ir ic pt it pv sl tb tm nt ef].
  repeat split.
  - cw_unfold. added_list. reflexivity.
  - destruct r as [[|]|], sk, o, cfg, cn; cw_unfold; added_list2;
      cbn [In]; auto 6.
  - cbn [config] in H. subst cfg.
    unfold react, run, handleResetChanges.
    destruct o; cw_unfold; same_render; reflexivity.
  - cbn [config] in H. subst cfg.
    unfold react, run, handleResetChanges.
    destruct o; cw_unfold; same_render; reflexivity.
Qed.

Lemma staged_model_is_saved_or_reset_witness :
  socket picked_camera_2 = true /\
  advanced_model (pendingConfig picked_camera_2) = "yolov5s" /\
  advanced_model
    (pendingConfig
       (react (run (handleModelChanged
                      (mkModelChanged true (Some "models/best.pt") None)))
          picked_camera_2)) = "models/best.pt".
Proof.
  split; [reflexivity | split; [reflexivity |]].
  assert (N : "models/best.pt" <> "") by discriminate.
  pose proof (staged_model_is_saved_or_reset picked_camera_2
                (mkModelChanged true (Some "models/best.pt") None)
                "models/best.pt" Thrown eq_refl eq_refl eq_refl N) as H.
  cbv zeta in H. destruct H as [H _]. exact H.
Defined.

End CameraCoordinator.

(** * Properties of the payment session *)

Section PaymentSession.
Import CheckoutModal.

(** Evaluates a transition of the checkout dialog on a state given as a
    record, innermost setter first; comparisons of numbers, list operations
    and [tryOpenSnap] are left as they are. *)
Ltac co_unfold :=
  cbv beta iota zeta delta
    [step steps fold_left react render handler on_socket run closeEffect
     handleCreatePayment handleOpenSnap handlePaymentError
     handlePaymentStatusUpdate handlePaymentCompleted
     newPayment tryAgain callback onSuccess onPending onError
     onClose openWidget resetPaymentState checkoutComplete onOpenChange
     setTimeout wait retry loadSnapScript tryOpenSnap_body expire
     when skip seq
     setOpen setPaymentStatus setPaymentData setErrorMessage
     setTimeRemaining setSnapPopupOpen setSnapScriptLoaded setTimers perform
     open socket cart total paymentStatus paymentData errorMessage
     timeRemaining snapPopupOpen snapScriptLoaded timers nextTimer effects
     snap_token script_loads window_snap
     ev_payment_successful ev_payment_failed ev_error
     truthy_string truthy_field truthy_flag template_string
     added session_reset fst snd andb negb Bool.eqb].

(** The same in a hypothesis. *)
Tactic Notation "co_unfold" "in" hyp(H) :=
  cbv beta iota zeta delta
    [step steps fold_left react render handler on_socket run closeEffect
     handleCreatePayment handleOpenSnap handlePaymentError
     handlePaymentStatusUpdate handlePaymentCompleted
     newPayment tryAgain callback onSuccess onPending onError
     onClose openWidget resetPaymentState checkoutComplete onOpenChange
     setTimeout wait retry loadSnapScript tryOpenSnap_body expire
     when skip seq
     setOpen setPaymentStatus setPaymentData setErrorMessage
     setTimeRemaining setSnapPopupOpen setSnapScriptLoaded setTimers perform
     open socket cart total paymentStatus paymentData errorMessage
     timeRemaining snapPopupOpen snapScriptLoaded timers nextTimer effects
     snap_token script_loads window_snap
     ev_payment_successful ev_payment_failed ev_error
     truthy_string truthy_field truthy_flag template_string
     added session_reset fst snd andb negb Bool.eqb] in H.

(** Evaluates the dispatch of a timer, leaving the callback and the render
    folded. *)
Ltac co_head :=
  cbv beta iota zeta delta
    [step steps fold_left react handler fireTimer timers nextTimer].

Lemma timer_fresh (id : nat) (cb : TimerCallback)
  (l : list (nat * TimerCallback)) :
  find_timer id l = None -> find_timer id (l ++ [(id, cb)]) = Some cb.
Proof.
  induction l as [|[i c] l IH]; cbn.
  - now rewrite Nat.eqb_refl.
  - destruct (Nat.eqb i id); [discriminate | exact IH].
Qed.

Lemma skipn_effects {A : Type} (l l' : list A) :
  skipn (length l) (l ++ l') = l'.
Proof. induction l; cbn; auto. Qed.

(** Brings the log that a step appended into the form of a list. *)
Ltac log_list :=
  rewrite <- ?app_assoc; rewrite ?skipn_effects; cbn [app].

(** *** The widget is dismissed *)

(** C3: when the widget's [onClose] fires on a pending session whose widget
    is open, the status stays [pending], [snapPopupOpen] becomes false, and
    a 500 ms timer is armed whose firing re-opens the dialog, still with
    status [pending]. *)
Theorem widget_close_keeps_pending (s : State) :
  paymentStatus s = pending ->
  snapPopupOpen s = true ->
  find_timer (nextTimer s) (timers s) = None ->
  let s1 := step s SnapClose in
  let s2 := step s1 (TimerFires (nextTimer s)) in
  paymentStatus s1 = pending /\
  snapPopupOpen s1 = false /\
  added s s1 = [SetTimeout (nextTimer s) 500] /\
  open s2 = true /\
  paymentStatus s2 = pending /\
  snapPopupOpen s2 = false.
Proof.
  destruct s as [o sk ct tt ps pd em tr sp sl tm nt ef].
  cbn [paymentStatus snapPopupOpen timers nextTimer].
  intros -> -> Hfresh. cbv zeta.
  remember (step _ SnapClose) as s1 eqn:E1.
  destruct o; co_unfold in E1; subst s1; co_head;
    rewrite (timer_fresh _ _ _ Hfresh); co_unfold; log_list;
    repeat split.
Qed.

Lemma widget_close_keeps_pending_witness :
  paymentStatus (widget_over_closed_dialog 900) = pending /\
  snapPopupOpen (widget_over_closed_dialog 900) = true /\
  open (widget_over_closed_dialog 900) = false /\
  open (steps (widget_over_closed_dialog 900)
          [SnapClose;
           TimerFires (nextTimer (widget_over_closed_dialog 900))]) = true.
Proof.
  do 3 (split; [reflexivity |]).
  apply (widget_close_keeps_pending (widget_over_closed_dialog 900)
           eq_refl eq_refl eq_refl).
Defined.

(** *** The countdown *)

Lemma step_CountdownTick (s : State) :
  step s CountdownTick = countdownTick s.
Proof.
  unfold step, react, render, handler, countdownTick.
  destruct s as [o sk ct tt ps pd em tr sp sl tm nt ef].
  cbn [timeRemaining].
  destruct (tr <=? 0); [| destruct (tr <=? 1)]; destruct o; reflexivity.
Qed.

Lemma countdownTick_last (s : State) :
  0 < timeRemaining s <= 1 -> countdownTick s = expire s.
Proof.
  intros [H0 H1]. unfold countdownTick.
  apply Z.leb_gt in H0. apply Z.leb_le in H1.
  now rewrite H0, H1.
Qed.

Lemma countdownTick_more (s : State) :
  1 < timeRemaining s ->
  countdownTick s = setTimeRemaining (timeRemaining s - 1) s.
Proof.
  intros H. unfold countdownTick.
  replace (timeRemaining s <=? 0) with false by (symmetry; apply Z.leb_gt; lia).
  replace (timeRemaining s <=? 1) with false by (symmetry; apply Z.leb_gt; lia).
  reflexivity.
Qed.

Lemma expire_setTimeRemaining (t : Z) (s : State) :
  expire (setTimeRemaining t s) = expire s.
Proof. destruct s. reflexivity. Qed.

(** A countdown that starts at [n + 1] seconds and is left alone ends, after
    [n + 1] firings, in [expire]. *)
Lemma countdown_expires (n : nat) (s : State) :
  timeRemaining s = Z.of_nat (S n) -> countdown (S n) s = expire s.
Proof.
  revert s. induction n as [|n IH]; intros s Ht.
  - cbn [countdown]. rewrite step_CountdownTick.
    apply countdownTick_last. lia.
  - change (countdown (S (S n)) s)
      with (countdown (S n) (step s CountdownTick)).
    rewrite step_CountdownTick, countdownTick_more by lia.
    rewrite IH.
    + apply expire_setTimeRemaining.
    + destruct s. cbn in *. lia.
Qed.

Lemma cart_clears_app (l l' : list Effect) :
  cart_clears (l ++ l') = (cart_clears l + cart_clears l')%nat.
Proof. unfold cart_clears. now rewrite filter_app, length_app. Qed.

(** C4: whatever the status of the session, the firing of the countdown
    that finds one second left sets the status to [expired]; a countdown
    left to run down ends [expired] with no time remaining.  A gateway event
    that reports success after that ([payment_status_update] with
    [payment_successful], or [payment_completed]) arms the 3 second timer
    whose firing emits [checkout_complete], which clears the cart. *)
Theorem countdown_expiry_and_late_success (s : State) (e : Event) :
  0 < timeRemaining s ->
  socket s = true ->
  find_timer (nextTimer s) (timers s) = None ->
  success_event e = true ->
  (timeRemaining s <= 1 -> paymentStatus (step s CountdownTick) = expired) /\
  let s1 := countdown (Z.to_nat (timeRemaining s)) s in
  paymentStatus s1 = expired /\
  timeRemaining s1 = 0 /\
  cart_clears (effects (steps s1 [e; TimerFires (nextTimer s1)]))
  = S (cart_clears (effects s1)).
Proof.
  intros Hpos Hsock Hfresh He. split.
  - intros Hle. rewrite step_CountdownTick, countdownTick_last by lia.
    destruct s. reflexivity.
  - cbv zeta.
    destruct (Z.to_nat (timeRemaining s)) as [|n] eqn:En; [lia |].
    rewrite countdown_expires by lia.
    destruct s as [o sk ct tt ps pd em tr sp sl tm nt ef].
    cbn [socket timers nextTimer] in Hsock, Hfresh. subst sk.
    split; [reflexivity | split; [reflexivity |]].
    assert (Hstep : step (expire (mkState o true ct tt ps pd em tr sp sl
                                     tm nt ef)) e
                    = mkState o true ct tt success pd
                        "Waktu pembayaran habis" 0 sp sl
                        (tm ++ [(nt, CompleteCloseAndReset)]) (S nt)
                        (ef ++ [SetTimeout nt 3000])).
    { destruct e; try discriminate.
      - destruct data as [? ? ? ? ? ? ? ? ? [[|]|] ?]; try discriminate.
        destruct o; co_unfold; reflexivity.
      - destruct o; co_unfold; reflexivity. }
    change (steps ?x [e; ?t]) with (step (step x e) t).
    rewrite Hstep. co_head.
    rewrite (timer_fresh _ _ _ Hfresh).
    destruct o; co_unfold; rewrite <- ?app_assoc, !cart_clears_app;
      cbn; lia.
Qed.

Lemma countdown_expiry_and_late_success_witness :
  0 < timeRemaining (widget_over_closed_dialog 2) /\
  paymentStatus (countdown 2 (widget_over_closed_dialog 2)) = expired /\
  cart_clears
    (effects (steps (countdown 2 (widget_over_closed_dialog 2))
                [PaymentStatusUpdate paid; TimerFires 2%nat])) = 1%nat.
Proof.
  split; [reflexivity |].
  pose proof (countdown_expiry_and_late_success
                (widget_over_closed_dialog 2) (PaymentStatusUpdate paid)
                eq_refl eq_refl eq_refl eq_refl) as [_ H].
  cbv zeta in H. destruct H as (H1 & _ & H3).
  split; [exact H1 | exact H3].
Defined.

(** *** Opening the widget *)

Lemma delays_app (l l' : list Effect) :
  delays (l ++ l') = (delays l ++ delays l')%list.
Proof. apply flat_map_app. Qed.

Lemma widget_opens_app (l l' : list Effect) :
  widget_opens (l ++ l') = (widget_opens l ++ widget_opens l')%list.
Proof. apply flat_map_app. Qed.

(** What one invocation of [tryOpenSnap] does: it appends to the log; either
    it schedules the retry, after 1000 ms, which happens only before the
    third attempt and only when the script failed to load or [window.snap]
    is missing, and then neither the widget nor the dialog was touched; or
    it is the last one, and then the widget was opened and the dialog closed,
    or nothing was opened. *)
Lemma tryOpenSnap_body_spec (b : Browser) (token : string) (attempt : nat)
  (s : State) :
  exists l,
    effects (fst (tryOpenSnap_body b token attempt s)) = (effects s ++ l)%list
    /\ ((snd (tryOpenSnap_body b token attempt s) = true /\
         (attempt < 3)%nat /\
         (script_loads b = false \/ window_snap b = false) /\
         delays l = [800; 1000] /\
         widget_opens l = [] /\
         open (fst (tryOpenSnap_body b token attempt s)) = open s)
        \/
        (snd (tryOpenSnap_body b token attempt s) = false /\
         delays l = [800] /\
         ((widget_opens l = [] /\
           open (fst (tryOpenSnap_body b token attempt s)) = open s)
          \/
          (widget_opens l = [token] /\
           open (fst (tryOpenSnap_body b token attempt s)) = false)))).
Proof.
  destruct s as [o sk ct tt ps pd em tr sp sl tm nt ef].
  destruct b as [loads snap].
  destruct token as [|a t], sl, loads, snap;
    co_unfold;
    try destruct (Nat.ltb_spec attempt 3);
    cbv beta iota; rewrite <- ?app_assoc; cbn [app];
    eexists; (split; [reflexivity |]); cbn;
    solve [ left; repeat split; auto
          | right; repeat split; left; repeat split
          | right; repeat split; right; repeat split ].
Qed.

(** [tryOpenSnap], from any attempt number: the invocations are numbered
    consecutively and there are at most [4 - attempt] of them (one, from the
    third on); each one but the last met a script that failed to load or a
    missing [window.snap]; each starts after 800 ms and each retry is
    scheduled after 1000 ms; the widget is opened at most once, and when it
    is the dialog is closed. *)
Lemma tryOpenSnap_spec (browser : nat -> Browser) (token : string)
  (attempt : nat) (s : State) :
  exists l,
    effects (fst (tryOpenSnap browser token attempt s)) = (effects s ++ l)%list
    /\ delays l
       = 800 :: flat_map (fun _ => [1000; 800])
                  (tl (snd (tryOpenSnap browser token attempt s)))
    /\ snd (tryOpenSnap browser token attempt s)
       = List.seq attempt (length (snd (tryOpenSnap browser token attempt s)))
    /\ (1 <= length (snd (tryOpenSnap browser token attempt s)))%nat
    /\ (attempt + length (snd (tryOpenSnap browser token attempt s))
        <= Nat.max (S attempt) 4)%nat
    /\ (forall a,
           In a (snd (tryOpenSnap browser token attempt s)) ->
           In (S a) (snd (tryOpenSnap browser token attempt s)) ->
           script_loads (browser a) = false \/ window_snap (browser a) = false)
    /\ ((widget_opens l = [] /\
         open (fst (tryOpenSnap browser token attempt s)) = open s)
        \/
        (widget_opens l = [token] /\
         open (fst (tryOpenSnap browser token attempt s)) = false)).
Proof.
  funelim (tryOpenSnap browser token attempt s).
  - (* a retry was scheduled *)
    clear Heqcall H0. rename H into IH.
    destruct (tryOpenSnap_body_spec (browser attempt) token attempt s)
      as (l1 & Hl1 & Hb).
    rewrite e in Hl1, Hb. cbn [fst snd] in Hl1, Hb.
    destruct Hb as [(_ & Hlt & Hwhy & Hd1 & Hw1 & Ho1)
                   | (Hf & _)]; [| discriminate].
    destruct IH as (l2 & Hl2 & Hd2 & Hseq & Hlen & Hbound & Hre & Hw2).
    cbv zeta. cbn [fst snd tl length].
    set (rest := snd (tryOpenSnap browser token (S attempt) s')) in *.
    exists (l1 ++ l2)%list. repeat split.
    + rewrite Hl2, Hl1. now rewrite app_assoc.
    + rewrite delays_app, Hd1, Hd2.
      destruct rest as [|x rest']; [cbn in Hlen; lia |]. reflexivity.
    + cbn [List.seq]. now rewrite <- Hseq.
    + lia.
    + lia.
    + intros a [<- | Ha] Hsa; [exact Hwhy |].
      destruct Hsa as [Hsa | Hsa].
      * rewrite Hseq in Ha. apply in_seq in Ha. lia.
      * apply Hre; assumption.
    + rewrite widget_opens_app, Hw1. cbn [app].
      destruct Hw2 as [[Hw2 Ho2] | [Hw2 Ho2]]; [left | right];
        split; congruence.
  - (* the last invocation *)
    clear Heqcall H.
    destruct (tryOpenSnap_body_spec (browser attempt) token attempt s)
      as (l1 & Hl1 & Hb).
    rewrite e in Hl1, Hb. cbn [fst snd] in Hl1, Hb.
    destruct Hb as [(Hf & _) | (_ & Hd1 & Hw1)]; [discriminate |].
    cbn [fst snd tl length List.seq flat_map].
    exists l1. repeat split; try assumption; try lia.
    intros a [<- | []] [Hsa | []]. lia.
Qed.

(** C7: the automatic opening that a [payment_created] event starts,
    [tryOpenSnap] from attempt 1, always returns, after one, two or three
    invocations numbered 1, 2, 3.  An invocation is followed by another one
    only when it met a Snap script that failed to load or a missing
    [window.snap]; every retry is scheduled after the same 1000 ms (and every
    invocation starts with the same 800 ms wait); the widget is opened at
    most once. *)
Theorem tryOpenSnap_bounded (browser : nat -> Browser) (token : string)
  (s : State) :
  let r := tryOpenSnap browser token 1 s in
  (length (snd r) <= 3)%nat /\
  (snd r = [1] \/ snd r = [1; 2] \/ snd r = [1; 2; 3])%nat /\
  (forall a, In a (snd r) -> In (S a) (snd r) ->
             script_loads (browser a) = false \/
             window_snap (browser a) = false) /\
  (length (widget_opens (added s (fst r))) <= 1)%nat /\
  delays (added s (fst r))
  = 800 :: flat_map (fun _ => [1000; 800]) (tl (snd r)).
Proof.
  cbv zeta.
  destruct (tryOpenSnap_spec browser token 1 s)
    as (l & Hl & Hd & Hseq & Hlen & Hbound & Hre & Hw).
  assert (Ha : added s (fst (tryOpenSnap browser token 1 s)) = l).
  { unfold added. rewrite Hl. apply skipn_effects. }
  rewrite Ha.
  set (attempts := snd (tryOpenSnap browser token 1 s)) in *.
  cbn [Nat.max] in Hbound.
  repeat split.
  - lia.
  - rewrite Hseq.
    destruct (length attempts) as [|[|[|[|n]]]]; cbn; auto; lia.
  - exact Hre.
  - destruct Hw as [[-> _] | [-> _]]; cbn; lia.
  - exact Hd.
Qed.

(** *** The dialog is closed under the widget *)

Lemma resetPaymentState_spec (s : State) :
  open (resetPaymentState s) = open s /\
  effects (resetPaymentState s) = effects s /\
  session_reset (resetPaymentState s).
Proof. destruct s. repeat split. Qed.

Lemma react_on_socket (h : State -> State) (s : State) :
  react (on_socket h) s = if socket s then react h s else s.
Proof.
  unfold react, on_socket, when, render, skip.
  destruct (socket s); [reflexivity |].
  now rewrite Bool.eqb_reflx.
Qed.

(** The re-open button opens the widget with the three statements of
    [WidgetOpens], run once the script is there. *)
Lemma reopen_button_opens_widget (s : State) (b : Browser) :
  can_reopen s = true ->
  snd (loadSnapScript b s) = true ->
  window_snap b = true ->
  exists d,
    paymentData s = Some d /\
    step s (OpenSnap b)
    = step (fst (loadSnapScript b s)) (WidgetOpens (snap_token d)).
Proof.
  destruct s as [o sk ct tt ps pd em tr sp sl tm nt ef].
  destruct b as [loads snap]. unfold can_reopen.
  cbn [paymentData snapPopupOpen window_snap].
  destruct pd as [[tx ord [|a t] url qr exp env]|]; try discriminate.
  destruct sp; try discriminate. intros _ Hl ->.
  eexists. split; [reflexivity |].
  destruct sl, loads; try discriminate Hl; destruct o; co_unfold;
    reflexivity.
Qed.

(** So does an invocation of [tryOpenSnap], after its wait. *)
Lemma tryOpenSnap_opens_widget (b : Browser) (token : string)
  (attempt : nat) (s : State) :
  truthy_string token = true ->
  snd (loadSnapScript b (wait 800 s)) = true ->
  window_snap b = true ->
  fst (tryOpenSnap_body b token attempt s)
  = handler (WidgetOpens token) (fst (loadSnapScript b (wait 800 s))).
Proof.
  intros Ht Hl Hw. unfold tryOpenSnap_body, handler.
  rewrite Ht, Hw.
  destruct (loadSnapScript b (wait 800 s)) as [s1 [|]];
    [reflexivity | discriminate Hl].
Qed.

(** C8, the claim as stated fails: when the user closed the dialog before
    the gateway answered, the widget opens over the closed dialog and the
    session is not reset: it stays [pending] with its data, its countdown
    and [snapPopupOpen] set. *)
Lemma widget_over_closed_dialog_keeps_session :
  open awaiting_gateway = false /\
  widget_opens (added awaiting_gateway (widget_over_closed_dialog 900))
  = ["token-1"] /\
  paymentStatus (widget_over_closed_dialog 900) = pending /\
  timeRemaining (widget_over_closed_dialog 900) = 900 /\
  snapPopupOpen (widget_over_closed_dialog 900) = true.
Proof. vm_compute. repeat split. Qed.

(** C8, as the code has it.  The widget is opened, by the re-open button or
    by [tryOpenSnap], with [setSnapPopupOpen(true)], [onOpenChange(false)]
    and [window.snap.pay]; [s] is the state of the component at that moment,
    whatever happened since the button was pressed or the event arrived.
    The dialog is closed afterwards.  If it was open, the effect of the
    render that follows resets the session (status [idle], no payment data,
    no time remaining, [snapPopupOpen] false) although the widget has just
    been opened.  If it was closed already, nothing is reset: status,
    payment data and remaining time stay as they are and [snapPopupOpen] is
    true. *)
Theorem widget_open_resets_open_dialog (s : State) (token : string) :
  let s' := step s (WidgetOpens token) in
  added s s' = [SnapPay token] /\
  open s' = false /\
  (open s = true -> session_reset s') /\
  (open s = false ->
   paymentStatus s' = paymentStatus s /\
   paymentData s' = paymentData s /\
   timeRemaining s' = timeRemaining s /\
   snapPopupOpen s' = true).
Proof.
  destruct s as [o sk ct tt ps pd em tr sp sl tm nt ef].
  cbv zeta. cbn [open paymentStatus paymentData timeRemaining].
  destruct o; co_unfold; log_list;
    (split; [reflexivity |]); (split; [reflexivity |]);
    split; intros H; try discriminate H; repeat split.
Qed.

Lemma widget_open_resets_open_dialog_witness :
  open pending_in_dialog = true /\
  paymentStatus pending_in_dialog = pending /\
  step pending_in_dialog (OpenSnap (snap_ready 1))
  = step pending_in_dialog (WidgetOpens "token-1") /\
  paymentStatus (step pending_in_dialog (WidgetOpens "token-1")) = idle.
Proof.
  do 3 (split; [vm_compute; reflexivity |]).
  pose proof (widget_open_resets_open_dialog pending_in_dialog "token-1")
    as H.
  cbv zeta in H. destruct H as (_ & _ & H & _).
  destruct (H eq_refl) as (H1 & _). exact H1.
Defined.

(** * Further properties of the payment session *)

(** *** What opening the widget leaves alone *)

Lemma frame_refl (s : State) : frame s s.
Proof. unfold frame. repeat split; auto. Qed.

Lemma frame_trans (s1 s2 s3 : State) :
  frame s1 s2 -> frame s2 s3 -> frame s1 s3.
Proof.
  unfold frame.
  intros (Ht & Hn & Hr & Hp & Hd & Hs & Hl)
         (Ht' & Hn' & Hr' & Hp' & Hd' & Hs' & Hl').
  split; [congruence |]. split; [lia |].
  do 4 (split; [congruence |]).
  intros Hloaded.
  destruct (Hl Hloaded) as [H1 H2]. destruct (Hl' H1) as [H3 H4].
  split; congruence.
Qed.

Lemma tryOpenSnap_body_frame (b : Browser) (token : string) (attempt : nat)
  (s : State) :
  frame s (fst (tryOpenSnap_body b token attempt s)).
Proof.
  destruct s as [o sk ct tt ps pd em tr sp sl tm nt ef].
  destruct b as [loads snap].
  unfold frame.
  destruct token as [|a t], sl, loads, snap; co_unfold;
    try destruct (Nat.ltb_spec attempt 3); cbv beta iota;
    unfold script_appends; rewrite ?filter_app, ?length_app; cbn;
    repeat split; try lia; try discriminate.
Qed.

Lemma tryOpenSnap_frame (browser : nat -> Browser) (token : string)
  (attempt : nat) (s : State) :
  frame s (fst (tryOpenSnap browser token attempt s)).
Proof.
  funelim (tryOpenSnap browser token attempt s).
  - clear Heqcall H0. cbv zeta. cbn [fst].
    eapply frame_trans; [| exact H].
    pose proof (tryOpenSnap_body_frame (browser attempt) token attempt s)
      as Hb.
    now rewrite e in Hb.
  - clear Heqcall H. cbn [fst].
    pose proof (tryOpenSnap_body_frame (browser attempt) token attempt s)
      as Hb.
    now rewrite e in Hb.
Qed.

(** *** What every step keeps *)

(** Settles a goal [keeps s s'] on evaluated records. *)
Ltac solve_keeps :=
  unfold keeps, script_appends;
  cbv beta iota zeta delta
    [timers nextTimer timeRemaining snapScriptLoaded effects];
  rewrite ?filter_app, ?length_app; cbn [filter length app];
  split;
  [ first [ left; split; [reflexivity | lia]
          | right; left; eexists; split; reflexivity
          | right; right; eexists; split; reflexivity ]
  | split; [ intros ?; lia
           | intros ?; split;
             first [assumption | reflexivity | discriminate | lia] ] ].

Lemma handlePaymentCreated_keeps (data : PaymentEventData)
  (expiresAt now : Z) (browser : nat -> Browser) (s : State) :
  keeps s (handlePaymentCreated data expiresAt now browser s).
Proof.
  unfold handlePaymentCreated.
  destruct (ev_snap_token data) as [token|],
           (ev_order_id data) as [order|],
           (ev_transaction_id data) as [transaction|],
           (ev_payment_url data) as [url|],
           (ev_expires_at data) as [expires|],
           (ev_environment data) as [env|];
    try (destruct s; unfold skip; solve_keeps).
  match goal with |- context [if ?c then _ else _] => destruct c end;
    [| destruct s; unfold skip; solve_keeps].
  unfold seq.
  match goal with
  | |- context [tryOpenSnap browser token 1 ?s0] =>
      pose proof (tryOpenSnap_frame browser token 1 s0) as Hf;
      set (s1 := fst (tryOpenSnap browser token 1 s0)) in *;
      assert (H0 : timers s0 = timers s /\ nextTimer s0 = nextTimer s /\
                   0 <= timeRemaining s0 /\
                   snapScriptLoaded s0 = snapScriptLoaded s /\
                   effects s0 = effects s)
        by (destruct s; cbn; repeat split; lia)
  end.
  destruct H0 as (H1 & H2 & H3 & H4 & H5).
  destruct Hf as (Ft & Fn & Fr & _ & _ & _ & Fl).
  unfold keeps. split; [left; split; [congruence | lia] |].
  split; [intros _; lia |].
  intros Hl. rewrite <- H4 in Hl. destruct (Fl Hl) as [Fa Fb].
  split; [exact Fa | congruence].
Qed.

Lemma handler_keeps (s : State) (e : Event) : keeps s (handler e s).
Proof.
  destruct e; unfold handler.
  - destruct s; co_unfold; solve_keeps.
  - destruct s as [o sk ct tt ps pd em tr sp sl tm nt ef].
    destruct ct, sk; co_unfold; solve_keeps.
  - destruct s as [o sk ct tt ps pd em tr sp sl tm nt ef].
    destruct b as [loads snap].
    destruct pd as [[tx ord [|a t] url qr exp env]|], sp, sl, loads, snap;
      co_unfold; solve_keeps.
  - unfold on_socket, when.
    destruct (socket s); [apply handlePaymentCreated_keeps |].
    destruct s; unfold skip; solve_keeps.
  - destruct s as [o sk ct tt ps pd em tr sp sl tm nt ef].
    destruct sk; co_unfold; solve_keeps.
  - destruct s as [o sk ct tt ps pd em tr sp sl tm nt ef].
    destruct data as [? ? ? ? ? ? ? ? ? [[|]|] [[|]|]], sk;
      co_unfold; solve_keeps.
  - destruct s as [o sk ct tt ps pd em tr sp sl tm nt ef].
    destruct sk; co_unfold; solve_keeps.
  - destruct s; co_unfold; solve_keeps.
  - destruct s; co_unfold; solve_keeps.
  - destruct s; co_unfold; solve_keeps.
  - destruct s; co_unfold; solve_keeps.
  - destruct s as [o sk ct tt ps pd em tr sp sl tm nt ef].
    unfold countdownTick. cbn [timeRemaining].
    destruct (Z.leb_spec tr 0); [| destruct (Z.leb_spec tr 1)];
      co_unfold; solve_keeps.
  - destruct s; co_unfold; solve_keeps.
  - destruct s; co_unfold; solve_keeps.
  - destruct s as [o sk ct tt ps pd em tr sp sl tm nt ef].
    unfold fireTimer. cbn [timers nextTimer].
    destruct (find_timer id tm) as [[| |]|], sk; co_unfold; solve_keeps.
  - destruct s; co_unfold; solve_keeps.
Qed.

Lemma render_keeps (was_open : bool) (s : State) :
  timers (render was_open s) = timers s /\
  nextTimer (render was_open s) = nextTimer s /\
  snapScriptLoaded (render was_open s) = snapScriptLoaded s /\
  effects (render was_open s) = effects s /\
  (0 <= timeRemaining s -> 0 <= timeRemaining (render was_open s)).
Proof.
  destruct s as [o sk ct tt ps pd em tr sp sl tm nt ef].
  destruct was_open, o; co_unfold; repeat split; auto; lia.
Qed.

Lemma step_keeps (s : State) (e : Event) : keeps s (step s e).
Proof.
  unfold step, react.
  destruct (handler_keeps s e) as (Ht & Hr & Hl).
  destruct (render_keeps (open s) (handler e s))
    as (Rt & Rn & Rl & Re & Rr).
  unfold keeps. rewrite Rt, Rn, Rl, Re. auto.
Qed.

(** X13: the remaining time is never negative: starting from a
    non-negative value (a freshly mounted dialog has 0), it stays
    non-negative after every sequence of events whose [payment_created]
    events carry an expiry that parses as a date, however far in the past
    that date lies. *)
Theorem timeRemaining_never_negative (s : State) (l : list Event) :
  0 <= timeRemaining s -> 0 <= timeRemaining (steps s l).
Proof.
  revert s. induction l as [|e l IH]; intros s H; [exact H |].
  apply IH. destruct (step_keeps s e) as (_ & Hr & _). exact (Hr H).
Qed.

Lemma timeRemaining_never_negative_witness :
  0 <= timeRemaining (initial true one_item 10000) /\
  0 <= timeRemaining
         (steps (initial true one_item 10000)
            [PaymentCreated created 0 5000 snap_ready; CountdownTick]).
Proof.
  assert (H : 0 <= timeRemaining (initial true one_item 10000))
    by (cbn; lia).
  split; [exact H |].
  apply (timeRemaining_never_negative (initial true one_item 10000)
           [PaymentCreated created 0 5000 snap_ready; CountdownTick] H).
Defined.

(** X14: once the Snap script has loaded, it stays loaded and no event
    appends another script element to the document: [loadSnapScript]
    resolves at once from then on. *)
Theorem snap_script_loaded_once (s : State) (l : list Event) :
  snapScriptLoaded s = true ->
  snapScriptLoaded (steps s l) = true /\
  script_appends (effects (steps s l)) = script_appends (effects s).
Proof.
  revert s. induction l as [|e l IH]; intros s H; [split; auto |].
  destruct (step_keeps s e) as (_ & _ & Hl). destruct (Hl H) as [H1 H2].
  destruct (IH (step s e) H1) as [H3 H4].
  change (steps s (e :: l)) with (steps (step s e) l).
  split; [exact H3 | now rewrite H4].
Qed.

Lemma snap_script_loaded_once_witness :
  snapScriptLoaded (widget_over_closed_dialog 900) = true /\
  snapScriptLoaded
    (steps (widget_over_closed_dialog 900)
       [SnapClose; OpenSnap (snap_ready 1)]) = true.
Proof.
  split; [reflexivity |].
  pose proof (snap_script_loaded_once (widget_over_closed_dialog 900)
                [SnapClose; OpenSnap (snap_ready 1)] eq_refl) as [H _].
  exact H.
Defined.

(** *** Creating a payment *)

(** X15: starting a payment with an empty cart fails at once: nothing is
    emitted, the status is back to [idle] and the message says that the cart
    is empty.  With items in the cart the status becomes [creating], the
    message is cleared and, when the socket exists, exactly one
    [create_payment] with the cart and its total is emitted. *)
Theorem create_payment_needs_items (s : State) :
  let s' := step s CreatePayment in
  match cart s with
  | [] =>
      paymentStatus s' = idle /\
      errorMessage s' = "Keranjang kosong" /\
      effects s' = effects s
  | _ :: _ =>
      paymentStatus s' = creating /\
      errorMessage s' = "" /\
      added s s'
      = (if socket s then [Emit (create_payment (cart s) (total s))]
         else [])
  end.
Proof.
  destruct s as [o sk ct tt ps pd em tr sp sl tm nt ef].
  cbv zeta. cbn [cart socket total].
  destruct ct, sk, o; co_unfold; log_list; rewrite ?skipn_all;
    repeat split.
Qed.

(** X16: a [payment_created] event whose payload is not complete (success
    not reported, or the token, order, transaction, URL, expiry or
    environment missing or empty) is dropped: the state does not change at
    all, so a session that is [creating] stays [creating] and no error is
    shown. *)
Theorem incomplete_payment_created_is_dropped
  (s : State) (data : PaymentEventData) (expiresAt now : Z)
  (browser : nat -> Browser) :
  payload_complete data = false ->
  step s (PaymentCreated data expiresAt now browser) = s.
Proof.
  intros Hc. unfold step, handler. rewrite react_on_socket.
  destruct (socket s); [| reflexivity].
  unfold react, handlePaymentCreated.
  unfold payload_complete, truthy_field in Hc.
  destruct (ev_snap_token data) as [token|],
           (ev_order_id data) as [order|],
           (ev_transaction_id data) as [transaction|],
           (ev_payment_url data) as [url|],
           (ev_expires_at data) as [expires|],
           (ev_environment data) as [env|];
    rewrite ?Bool.andb_false_r in Hc; cbn [andb] in Hc;
    try rewrite Hc;
    unfold skip, render; now rewrite Bool.eqb_reflx.
Qed.

Lemma incomplete_payment_created_is_dropped_witness :
  payload_complete paid = false /\
  paymentStatus
    (steps (initial true one_item 10000)
       [OpenChange true; CreatePayment;
        PaymentCreated paid 900000 0 snap_ready]) = creating.
Proof.
  split; [reflexivity |].
  change (steps ?s [?a; ?b; ?c]) with (step (steps s [a; b]) c).
  rewrite (incomplete_payment_created_is_dropped _ paid 900000 0 snap_ready
             eq_refl).
  reflexivity.
Defined.

(** *** The countdown, continued *)

Lemma countdown_stopped (n : nat) (s : State) :
  timeRemaining s <= 0 -> countdown n s = s.
Proof.
  intros H. induction n as [|n IH]; [reflexivity |].
  cbn [countdown]. rewrite step_CountdownTick.
  unfold countdownTick. apply Z.leb_le in H. now rewrite H.
Qed.

(** X17: a payment that is created with its expiry less than a second
    away, or already past, gets a remaining time of 0 and is shown as
    [pending] (or [idle], when opening the widget closed the dialog).  The
    countdown then never starts: however often it would fire, the state does
    not change, and the session is never marked [expired]. *)
Theorem expired_on_arrival_never_expires
  (s : State) (data : PaymentEventData) (expiresAt now : Z)
  (browser : nat -> Browser) (n : nat) :
  payload_complete data = true ->
  socket s = true ->
  expiresAt - now < 1000 ->
  let s' := step s (PaymentCreated data expiresAt now browser) in
  timeRemaining s' = 0 /\
  (paymentStatus s' = pending \/ paymentStatus s' = idle) /\
  countdown n s' = s'.
Proof.
  intros Hc Hs Hlt. cbv zeta.
  assert (H : timeRemaining (step s (PaymentCreated data expiresAt now
                                       browser)) = 0 /\
              (paymentStatus (step s (PaymentCreated data expiresAt now
                                        browser)) = pending \/
               paymentStatus (step s (PaymentCreated data expiresAt now
                                        browser)) = idle)).
  { unfold step, handler. rewrite react_on_socket, Hs.
    unfold react, handlePaymentCreated.
    unfold payload_complete, truthy_field in Hc.
    destruct (ev_snap_token data) as [token|],
             (ev_order_id data) as [order|],
             (ev_transaction_id data) as [transaction|],
             (ev_payment_url data) as [url|],
             (ev_expires_at data) as [expires|],
             (ev_environment data) as [env|];
      rewrite ?Bool.andb_false_r in Hc; try discriminate Hc.
    rewrite Hc. unfold seq.
    match goal with
    | |- context [tryOpenSnap browser token 1 ?s0] =>
        pose proof (tryOpenSnap_frame browser token 1 s0) as Hf;
        set (s1 := fst (tryOpenSnap browser token 1 s0)) in *;
        assert (H0 : timeRemaining s0 = 0 /\ paymentStatus s0 = pending)
    end.
    { destruct s. cbn. split; [| reflexivity].
      apply Z.max_l.
      assert ((expiresAt - now) / 1000 < 1)
        by (apply Z.div_lt_upper_bound; lia).
      lia. }
    destruct H0 as (H1 & H2).
    destruct Hf as (_ & _ & Fr & Fp & _).
    rewrite H1 in Fr. rewrite H2 in Fp.
    unfold render.
    destruct (Bool.eqb (open s) (open s1)); [auto |].
    unfold run, closeEffect, when.
    destruct (open s1); cbn [negb]; [unfold skip; auto |].
    destruct (resetPaymentState_spec s1) as (_ & _ & (R1 & _ & R3 & _)).
    auto. }
  destruct H as [H1 H2]. repeat split; try assumption.
  apply countdown_stopped. lia.
Qed.

Lemma expired_on_arrival_never_expires_witness :
  payload_complete created = true /\
  paymentStatus
    (countdown 5
       (step awaiting_gateway (PaymentCreated created 1000 1500 snap_ready)))
  = pending.
Proof.
  split; [reflexivity |].
  pose proof (expired_on_arrival_never_expires awaiting_gateway created
                1000 1500 snap_ready 5 eq_refl eq_refl eq_refl) as H.
  cbv zeta in H. destruct H as (_ & _ & H). rewrite H. reflexivity.
Defined.

(** *** The outcomes of the widget *)

(** X18: after the widget reported success the session shows [success]; the
    timer armed for 3 seconds then emits [checkout_complete] once and resets
    the session, without opening or closing the dialog. *)
Theorem widget_success_clears_cart (s : State) :
  socket s = true ->
  find_timer (nextTimer s) (timers s) = None ->
  let s1 := step s SnapSuccess in
  let s2 := step s1 (TimerFires (nextTimer s)) in
  paymentStatus s1 = success /\
  snapPopupOpen s1 = false /\
  added s s1 = [SetTimeout (nextTimer s) 3000] /\
  session_reset s2 /\
  errorMessage s2 = "" /\
  open s2 = open s /\
  added s1 s2 = [Emit checkout_complete].
Proof.
  destruct s as [o sk ct tt ps pd em tr sp sl tm nt ef].
  cbn [socket timers nextTimer]. intros -> Hfresh. cbv zeta.
  remember (step _ SnapSuccess) as s1 eqn:E1.
  destruct o; co_unfold in E1; subst s1; co_head;
    rewrite (timer_fresh _ _ _ Hfresh); co_unfold; log_list;
    rewrite ?length_app, ?skipn_length_plus; cbn [length skipn];
    repeat split.
Qed.

Lemma widget_success_clears_cart_witness :
  socket (widget_over_closed_dialog 900) = true /\
  cart_clears
    (effects (steps (widget_over_closed_dialog 900)
                [SnapSuccess;
                 TimerFires (nextTimer (widget_over_closed_dialog 900))]))
  = 1%nat /\
  paymentStatus
    (steps (widget_over_closed_dialog 900)
       [SnapSuccess;
        TimerFires (nextTimer (widget_over_closed_dialog 900))]) = idle.
Proof.
  split; [reflexivity | split; [reflexivity |]].
  pose proof (widget_success_clears_cart (widget_over_closed_dialog 900)
                eq_refl eq_refl) as H.
  cbv zeta in H. destruct H as (_ & _ & _ & (H & _) & _). exact H.
Defined.

(** *** Timers of the dialog *)

Lemma find_timer_app (id : nat) (l l' : list (nat * TimerCallback)) :
  find_timer id (l ++ l')
  = match find_timer id l with
    | Some cb => Some cb
    | None => find_timer id l'
    end.
Proof.
  induction l as [|[i c] l IH]; cbn; [reflexivity |].
  destruct (Nat.eqb i id); [reflexivity | exact IH].
Qed.

Lemma remove_timer_app (id : nat) (l l' : list (nat * TimerCallback)) :
  remove_timer id (l ++ l')
  = (remove_timer id l ++ remove_timer id l')%list.
Proof.
  induction l as [|[i c] l IH]; cbn; [reflexivity |].
  destruct (Nat.eqb i id); [exact IH | cbn; now rewrite IH].
Qed.

Lemma find_timer_remove_none (id id' : nat) (l : list (nat * TimerCallback)) :
  find_timer id l = None -> find_timer id (remove_timer id' l) = None.
Proof.
  induction l as [|[i c] l IH]; cbn; [reflexivity |].
  destruct (Nat.eqb i id) eqn:E; [discriminate |].
  intros H. destruct (Nat.eqb i id'); cbn; rewrite ?E; auto.
Qed.

Lemma find_timer_beyond (n m : nat) (l : list (nat * TimerCallback)) :
  Forall (fun t => (fst t < n)%nat) l -> (n <= m)%nat ->
  find_timer m l = None.
Proof.
  induction 1 as [|[i c] l Hx Hl IH]; intros Hm; [reflexivity |].
  cbn in Hx |- *. destruct (Nat.eqb_spec i m); [lia | auto].
Qed.

Lemma second_timer (n : nat) (c1 c2 : TimerCallback)
  (l : list (nat * TimerCallback)) :
  find_timer (S n) l = None ->
  find_timer (S n) (remove_timer n ((l ++ [(n, c1)]) ++ [(S n, c2)]))
  = Some c2.
Proof.
  intros H. rewrite !remove_timer_app, !find_timer_app.
  rewrite (find_timer_remove_none _ _ _ H).
  cbn [remove_timer find_timer]. rewrite Nat.eqb_refl. cbn [find_timer].
  replace (Nat.eqb (S n) n) with false by (symmetry; apply Nat.eqb_neq; lia).
  cbn [find_timer]. now rewrite Nat.eqb_refl.
Qed.

(** X19: nothing cancels the timer that a success report arms.  When the
    widget reports success and the gateway reports it too, both 3 second
    timers fire, and [checkout_complete] is emitted twice; the session ends
    reset and the dialog closed. *)
Theorem success_reported_twice_clears_twice (s : State) (e : Event) :
  socket s = true ->
  success_event e = true ->
  timers_fresh s ->
  let s' := steps s [SnapSuccess; e; TimerFires (nextTimer s);
                     TimerFires (S (nextTimer s))] in
  cart_clears (added s s') = 2%nat /\
  delays (added s s') = [3000; 3000] /\
  session_reset s' /\
  open s' = false.
Proof.
  intros Hs He Hf.
  pose proof (find_timer_beyond _ (nextTimer s) _ Hf (Nat.le_refl _)) as H1.
  pose proof (find_timer_beyond _ (S (nextTimer s)) _ Hf
                (Nat.le_succ_diag_r _)) as H2.
  clear Hf. destruct s as [o sk ct tt ps pd em tr sp sl tm nt ef].
  cbn [socket timers nextTimer] in Hs, H1, H2. subst sk. cbv zeta.
  cbn [nextTimer].
  change (steps ?x [?a; ?b; ?c; ?d])
    with (step (step (step (step x a) b) c) d).
  remember (step _ SnapSuccess) as s1 eqn:E1.
  assert (E2 : exists s2, s2 = step s1 e /\
             s2 = mkState o true ct tt success pd em tr false sl
                    ((tm ++ [(nt, CompleteAndReset)])
                       ++ [(S nt, CompleteCloseAndReset)])
                    (S (S nt))
                    ((ef ++ [SetTimeout nt 3000])
                       ++ [SetTimeout (S nt) 3000])).
  { eexists. split; [reflexivity |]. subst s1.
    destruct e; try discriminate.
    - destruct data as [? ? ? ? ? ? ? ? ? [[|]|] ?]; try discriminate.
      destruct o; co_unfold; reflexivity.
    - destruct o; co_unfold; reflexivity. }
  destruct E2 as (s2 & <- & E2). clear E1 s1. subst s2.
  remember (step _ (TimerFires nt)) as s3 eqn:E3.
  cbv beta iota zeta delta
    [step react handler fireTimer timers nextTimer] in E3.
  rewrite find_timer_app, (timer_fresh _ _ _ H1) in E3.
  destruct o; co_unfold in E3; subst s3; co_head;
    rewrite (second_timer _ _ _ _ H2); co_unfold; log_list;
    repeat split.
Qed.

Lemma success_reported_twice_clears_twice_witness :
  socket (widget_over_closed_dialog 900) = true /\
  timers_fresh (widget_over_closed_dialog 900) /\
  cart_clears
    (added (widget_over_closed_dialog 900)
       (steps (widget_over_closed_dialog 900)
          [SnapSuccess; PaymentCompleted;
           TimerFires (nextTimer (widget_over_closed_dialog 900));
           TimerFires (S (nextTimer (widget_over_closed_dialog 900)))]))
  = 2%nat.
Proof.
  assert (F : timers_fresh (widget_over_closed_dialog 900))
    by (vm_compute; constructor).
  split; [reflexivity | split; [exact F |]].
  pose proof (success_reported_twice_clears_twice
                (widget_over_closed_dialog 900) PaymentCompleted
                eq_refl eq_refl F) as H.
  cbv zeta in H. destruct H as (H & _). exact H.
Defined.

(** *** The re-open button *)

(** X20: the re-open button does nothing without payment data, with an
    empty token, or while the widget is marked open.  Otherwise it makes a
    single attempt and arms no timer: with the script loaded (now or
    before) and [window.snap] present the widget opens with the session's
    token and the dialog closes; with [window.snap] missing the session
    fails with "Snap script tidak tersedia"; when the script fails to load
    it fails with "Gagal membuka halaman pembayaran". *)
Theorem reopen_button_makes_one_attempt (s : State) (b : Browser) :
  let s' := step s (OpenSnap b) in
  if can_reopen s then
    timers s' = timers s /\ nextTimer s' = nextTimer s /\
    delays (added s s') = [] /\
    if snapScriptLoaded s || script_loads b then
      if window_snap b then
        open s' = false /\
        option_map snap_token (paymentData s)
        = head (widget_opens (added s s')) /\
        length (widget_opens (added s s')) = 1%nat
      else
        open s' = open s /\ paymentStatus s' = failed /\
        errorMessage s' = "Snap script tidak tersedia" /\
        widget_opens (added s s') = []
    else
      open s' = open s /\ paymentStatus s' = failed /\
      errorMessage s' = "Gagal membuka halaman pembayaran" /\
      snapPopupOpen s' = false /\
      widget_opens (added s s') = []
  else s' = s.
Proof.
  destruct s as [o sk ct tt ps pd em tr sp sl tm nt ef].
  destruct b as [loads snap]. cbv zeta.
  unfold can_reopen.
  cbn [paymentData snapPopupOpen snapScriptLoaded script_loads window_snap].
  destruct pd as [[tx ord [|a t] url qr exp env]|], sp, sl, loads, snap, o;
    cbn [truthy_string snap_token andb negb orb];
    co_unfold; log_list; rewrite ?skipn_all; repeat split.
Qed.

(** *** Closing the dialog *)

(** X21: closing the open dialog abandons the session: status, payment
    data, message, remaining time and widget flag are reset, nothing is
    emitted and no armed timer is cancelled; afterwards the re-open button
    does nothing, whatever the browser. *)
Theorem closing_dialog_abandons_session (s : State) :
  open s = true ->
  let s' := step s (OpenChange false) in
  session_reset s' /\
  errorMessage s' = "" /\
  timers s' = timers s /\
  effects s' = effects s /\
  forall b, step s' (OpenSnap b) = s'.
Proof.
  destruct s as [o sk ct tt ps pd em tr sp sl tm nt ef].
  cbn [open]. intros ->. cbv zeta.
  remember (step _ (OpenChange false)) as s1 eqn:E1.
  co_unfold in E1. subst s1.
  repeat split.
Qed.

Lemma closing_dialog_abandons_session_witness :
  open pending_in_dialog = true /\
  paymentStatus pending_in_dialog = pending /\
  paymentData (step pending_in_dialog (OpenChange false)) = None.
Proof.
  split; [reflexivity | split; [reflexivity |]].
  pose proof (closing_dialog_abandons_session pending_in_dialog eq_refl)
    as H.
  cbv zeta in H. destruct H as ((_ & H & _) & _). exact H.
Defined.

(** X22: after the widget reported [pending] the dialog re-opens on a
    pending session, but the widget is still marked open, so the re-open
    button does nothing, whatever the browser. *)
Theorem pending_report_blocks_reopen_button (s : State) (b : Browser) :
  snapPopupOpen s = true ->
  find_timer (nextTimer s) (timers s) = None ->
  let s2 := steps s [SnapPending; TimerFires (nextTimer s)] in
  added s s2 = [SetTimeout (nextTimer s) 500] /\
  open s2 = true /\
  paymentStatus s2 = pending /\
  snapPopupOpen s2 = true /\
  step s2 (OpenSnap b) = s2.
Proof.
  destruct s as [o sk ct tt ps pd em tr sp sl tm nt ef].
  cbn [snapPopupOpen timers nextTimer]. intros -> Hfresh. cbv zeta.
  change (steps ?x [?a; ?c]) with (step (step x a) c).
  remember (step _ SnapPending) as s1 eqn:E1.
  destruct o; co_unfold in E1; subst s1;
    remember (step _ (TimerFires nt)) as s2 eqn:E2;
    cbv beta iota zeta delta
      [step react handler fireTimer timers nextTimer] in E2;
    rewrite (timer_fresh _ _ _ Hfresh) in E2;
    co_unfold in E2; subst s2;
    destruct pd as [[tx ord [|a t] url qr exp env]|];
    co_unfold; log_list; repeat split.
Qed.

Lemma pending_report_blocks_reopen_button_witness :
  snapPopupOpen (widget_over_closed_dialog 900) = true /\
  step (steps (widget_over_closed_dialog 900)
          [SnapPending;
           TimerFires (nextTimer (widget_over_closed_dialog 900))])
    (OpenSnap (snap_ready 0))
  = steps (widget_over_closed_dialog 900)
      [SnapPending;
       TimerFires (nextTimer (widget_over_closed_dialog 900))].
Proof.
  split; [reflexivity |].
  pose proof (pending_report_blocks_reopen_button
                (widget_over_closed_dialog 900) (snap_ready 0)
                eq_refl eq_refl) as H.
  cbv zeta in H. destruct H as (_ & _ & _ & _ & H). exact H.
Defined.

(** *** Failures come with a message *)

Lemma render_error_shown (was_open : bool) (s : State) :
  error_shown s -> error_shown (render was_open s).
Proof.
  intros H. unfold render.
  destruct (Bool.eqb was_open (open s)); [exact H |].
  unfold run, closeEffect, when.
  destruct (negb (open s)); [destruct s; exact I | exact H].
Qed.

Lemma handlePaymentCreated_error_shown (data : PaymentEventData)
  (expiresAt now : Z) (browser : nat -> Browser) (s : State) :
  error_shown s ->
  error_shown (handlePaymentCreated data expiresAt now browser s).
Proof.
  intros H. unfold handlePaymentCreated.
  destruct (ev_snap_token data) as [token|],
           (ev_order_id data) as [order|],
           (ev_transaction_id data) as [transaction|],
           (ev_payment_url data) as [url|],
           (ev_expires_at data) as [expires|],
           (ev_environment data) as [env|]; try exact H.
  match goal with |- context [if ?c then _ else _] => destruct c end;
    [| exact H].
  unfold seq.
  match goal with
  | |- context [tryOpenSnap browser token 1 ?s0] =>
      destruct (tryOpenSnap_frame browser token 1 s0) as (_ & _ & _ & F & _);
      assert (P : paymentStatus s0 = pending) by (destruct s; reflexivity)
  end.
  unfold error_shown. rewrite F, P. exact I.
Qed.

Lemma handler_error_shown (e : Event) (s : State) :
  error_shown s -> error_shown (handler e s).
Proof.
  intros H.
  destruct e as [b | | b | data expiresAt now browser | data | data | | | |
                 | | | | | id | token];
    try (unfold handler, on_socket, when;
         destruct (socket s); [| exact H]);
    try (apply handlePaymentCreated_error_shown; exact H);
    unfold error_shown in *;
    destruct s as [o sk ct tt ps pd em tr sp sl tm nt ef];
    cbn [paymentStatus errorMessage] in H.
  - co_unfold. exact H.
  - destruct ct, sk; co_unfold; exact I.
  - destruct b as [loads snap].
    destruct pd as [[tx ord [|a t] url qr exp env]|], sp, sl, loads, snap;
      co_unfold; first [exact H | congruence].
  - destruct data as [? [[|a m]|] ? ? ? ? ? ? ? ? ?]; co_unfold; congruence.
  - destruct data as [? ? ? ? ? ? ? ? ? [[|]|] [[|]|]]; co_unfold;
      first [exact H | exact I | congruence].
  - co_unfold. exact I.
  - co_unfold. exact I.
  - co_unfold. exact I.
  - co_unfold. congruence.
  - co_unfold. exact H.
  - unfold handler, countdownTick. cbn [timeRemaining].
    destruct (tr <=? 0); [| destruct (tr <=? 1)]; co_unfold;
      first [exact H | congruence].
  - co_unfold. exact I.
  - co_unfold. exact I.
  - unfold handler, fireTimer. cbn [timers nextTimer].
    destruct (find_timer id tm) as [[| |]|]; co_unfold;
      first [exact H | exact I].
  - co_unfold. exact H.
Qed.

(** X23: a session that is [failed] or [expired] always has a message to
    show: every handler that sets one of these statuses sets a non-empty
    message with it, and the message is cleared only together with the
    status.  So when this holds of a state, it holds after every sequence
    of events. *)
Theorem failure_always_has_message (s : State) (l : list Event) :
  error_shown s -> error_shown (steps s l).
Proof.
  revert s. induction l as [|e l IH]; intros s H; [exact H |].
  change (steps s (e :: l)) with (steps (step s e) l).
  apply IH. unfold step, react.
  apply render_error_shown, handler_error_shown, H.
Qed.

Lemma failure_always_has_message_witness :
  error_shown (initial true one_item 10000) /\
  paymentStatus
    (steps (initial true one_item 10000)
       [OpenChange true; CreatePayment; PaymentError paid]) = failed /\
  errorMessage
    (steps (initial true one_item 10000)
       [OpenChange true; CreatePayment; PaymentError paid]) <> "".
Proof.
  split; [exact I | split; [reflexivity |]].
  pose proof (failure_always_has_message (initial true one_item 10000)
                [OpenChange true; CreatePayment; PaymentError paid] I) as H.
  vm_compute in H |- *. exact H.
Defined.

End PaymentSession.
